(** * A rolling-deployment controller, checked against its specification

    Shallow embedding of [src/media/example.py]: the [DeployConfig] dataclass,
    [DeploymentManager] ([deploy], [_update_deployment], [_wait_for_rollout],
    [_verify_health], [_rollback]), [load_config] and [main].

    The script talks to three collaborators: [subprocess.run] (the kubectl
    backend), an aiohttp session (the health prober) and [asyncio.sleep].
    They are an interface here: [Environment] in general, where a call may
    also be interrupted by an exception that no [except Exception] clause
    catches, and [Collaborators] for the calls that return or raise an
    [Exception].  A theorem holds for every implementation of the interface it
    is stated over, and scripted implementations ([Scripted], [Interrupting])
    run the controller on concrete scenarios.
    A run yields the value returned (or the exception raised), the final
    state of the collaborators and the chronological list of the calls the
    script made to them, log lines included. *)

From Stdlib Require Import ZArith String Ascii List Bool Lia DecimalString.
Import ListNotations.

Local Open Scope string_scope.
Local Open Scope list_scope.

(** ** Python values *)

(** The fields of a [DeployConfig] are annotated [str], [int] and [bool], but a
    dataclass does not enforce its annotations: a field holds whatever value
    the YAML document gives.  The script observes such a value in three ways
    only: it formats it in an f-string ([str()]), it tests its truth
    ([if self.config.rollback_on_failure]) and it hands it to [subprocess.run].
    [PObj] stands for any value that is not a YAML null, bool, int or string
    (a float, a list, a mapping, a date), represented by its [str()] and its
    truth value. *)
Inductive pyval : Type :=
| PNone
| PBool (b : bool)
| PInt (z : Z)
| PStr (s : string)
| PObj (str : string) (truth : bool).

(** [str(z)] for an [int]. *)
Definition int_str (z : Z) : string := NilZero.string_of_int (Z.to_int z).

(** [str(v)], which is what [{v}] in an f-string produces. *)
Definition py_str (v : pyval) : string :=
  match v with
  | PNone => "None"
  | PBool true => "True"
  | PBool false => "False"
  | PInt z => int_str z
  | PStr s => s
  | PObj s _ => s
  end.

(** [bool(v)], the test of an [if]. *)
Definition truthy (v : pyval) : bool :=
  match v with
  | PNone => false
  | PBool b => b
  | PInt z => negb (z =? 0)%Z
  | PStr s => negb (s =? "")
  | PObj _ t => t
  end.

(** An f-string is the concatenation of its literal and formatted parts. *)
Definition f_string (parts : list string) : string := String.concat "" parts.

(** An instance of [Exception]: its class name and its [str()].  This is
    what an [except Exception] clause catches. *)
Record pyexc : Type := Exception { exc_class : string; exc_str : string }.

(** An exception that derives from [BaseException] and not from [Exception]:
    the cancellation of the task that runs the script, raised at an [await],
    and Ctrl-C.  No clause of the script catches them.  They are modelled
    where the script waits, at its calls to the collaborators.
    ([SystemExit], which [main] raises itself, is a separate case of
    [result] below.) *)
Inductive interruption : Type := CancelledError | KeyboardInterrupt.

(** What a call to a collaborator does: return a value or raise. *)
Inductive outcome (A : Type) : Type :=
| Returned (a : A)
| Raised (e : pyexc).
Arguments Returned {A} a.
Arguments Raised {A} e.

(** What a call to a collaborator does in general: it ends with an
    [outcome], or it is interrupted. *)
Inductive answer (A : Type) : Type :=
| Answer (o : outcome A)
| Interrupt (i : interruption).
Arguments Answer {A} o.
Arguments Interrupt {A} i.

(** ** [DeployConfig] (lines 28-37) *)

Record DeployConfig : Type := mkDeployConfig {
  service_name : pyval;
  image_tag : pyval;
  namespace : pyval;
  replicas : pyval;
  health_check_path : pyval;
  timeout_seconds : pyval;
  rollback_on_failure : pyval
}.

(** [config.image_tag = image_tag] (line 147). *)
Definition set_image_tag (config : DeployConfig) (tag : pyval) : DeployConfig :=
  {| service_name := service_name config;
     image_tag := tag;
     namespace := namespace config;
     replicas := replicas config;
     health_check_path := health_check_path config;
     timeout_seconds := timeout_seconds config;
     rollback_on_failure := rollback_on_failure config |}.

(** ** Collaborators and the trace of a run *)

(** [subprocess.run(cmd, capture_output=True, text=True)] returns a
    [CompletedProcess]. *)
Record CompletedProcess : Type := mkCompletedProcess {
  returncode : Z;
  stdout : string;
  stderr : string
}.

(** The object [yaml.safe_load] returns: a mapping (a [dict], as the list of
    its items) or anything else ([None] for an empty file, a scalar, a list). *)
Inductive document : Type :=
| Mapping (items : list (pyval * pyval))
| NotMapping (v : pyval).

Inductive level : Type := INFO | WARNING | ERROR.

Inductive event : Type :=
| SubprocessRun (cmd : list pyval) (res : outcome CompletedProcess)
| SessionGet (url : string) (timeout : Z) (res : outcome Z)
| Sleep (seconds : Z)
| Log (lvl : level) (msg : string)
| Stdout (msg : string)
| Interrupted (i : interruption).

(** The collaborators, over a state [W] of their own that the script cannot
    see.  [session_get url timeout] is [session.get(url, timeout=timeout)]
    and returns the response's [status].  [path_exists] and [open_safe_load]
    are the configuration source: [Path.exists()], and [open] followed by
    [yaml.safe_load].  Here every call ends: it returns, or it raises an
    [Exception] where the type says so; [Environment] below is the interface
    with interruptions. *)
Class Collaborators (W : Type) : Type := {
  subprocess_run : list pyval -> W -> outcome CompletedProcess * W;
  session_get : string -> Z -> W -> outcome Z * W;
  asyncio_sleep : Z -> W -> W;
  path_exists : string -> W -> bool;
  open_safe_load : string -> W -> outcome document
}.

(** The collaborators in general: any call may be interrupted.  A sleep
    either elapses ([None]) or is interrupted.  The script is written over
    this interface. *)
Class Environment (W : Type) : Type := {
  env_run : list pyval -> W -> answer CompletedProcess * W;
  env_get : string -> Z -> W -> answer Z * W;
  env_sleep : Z -> W -> option interruption * W;
  env_exists : string -> W -> answer bool;
  env_load : string -> W -> answer document
}.

(** [Collaborators] are the environments in which no call is interrupted. *)
#[global] Instance uninterrupted {W : Type} (C : Collaborators W) : Environment W := {
  env_run cmd w :=
    match subprocess_run cmd w with
    | (o, w1) => (Answer o, w1)
    end;
  env_get url timeout w :=
    match session_get url timeout w with
    | (o, w1) => (Answer o, w1)
    end;
  env_sleep seconds w := (None, asyncio_sleep seconds w);
  env_exists path w := Answer (Returned (path_exists path w));
  env_load path w := Answer (open_safe_load path w)
}.

(** How a computation of the script ends: it returns, it raises an
    [Exception], it raises [SystemExit] ([sys.exit(code)]), or an
    interruption goes through it; an [except Exception] clause catches
    neither of the last two. *)
Inductive result (A : Type) : Type :=
| Ok (a : A)
| Exc (e : pyexc)
| SysExit (code : Z)
| BaseExc (i : interruption).
Arguments Ok {A} a.
Arguments Exc {A} e.
Arguments SysExit {A} code.
Arguments BaseExc {A} i.

Definition of_outcome {A : Type} (o : outcome A) : result A :=
  match o with
  | Returned a => Ok a
  | Raised e => Exc e
  end.

(** The operations of the kubectl backend, and the one a command line asks
    for: the two words after [kubectl -n <namespace>]. *)
Inductive backend_op : Type := ApplyUpdate | WaitForRollout | Undo.

Definition backend_op_eqb (a b : backend_op) : bool :=
  match a, b with
  | ApplyUpdate, ApplyUpdate | WaitForRollout, WaitForRollout | Undo, Undo => true
  | _, _ => false
  end.

Definition backend_op_of (cmd : list pyval) : option backend_op :=
  match cmd with
  | PStr k :: PStr n :: _ :: PStr verb :: PStr object :: _ =>
      if negb ((k =? "kubectl") && (n =? "-n")) then None
      else if (verb =? "set") && (object =? "image") then Some ApplyUpdate
      else if (verb =? "rollout") && (object =? "status") then Some WaitForRollout
      else if (verb =? "rollout") && (object =? "undo") then Some Undo
      else None
  | _ => None
  end.

Definition invokes (op : backend_op) (ev : event) : bool :=
  match ev with
  | SubprocessRun cmd _ =>
      match backend_op_of cmd with
      | Some op' => backend_op_eqb op op'
      | None => false
      end
  | _ => false
  end.

(** Number of times a run invoked a backend operation. *)
Definition invocations (op : backend_op) (tr : list event) : nat :=
  length (filter (invokes op) tr).

(** The probe attempts of a run, in order, each with what it gave. *)
Fixpoint probes (tr : list event) : list (outcome Z) :=
  match tr with
  | [] => []
  | SessionGet _ _ res :: tr' => res :: probes tr'
  | _ :: tr' => probes tr'
  end.

(** The sleeps of a run, in order, in seconds. *)
Fixpoint sleeps (tr : list event) : list Z :=
  match tr with
  | [] => []
  | Sleep s :: tr' => s :: sleeps tr'
  | _ :: tr' => sleeps tr'
  end.

(** The messages a run logged at a level, in order. *)
Fixpoint logged (lvl : level) (tr : list event) : list string :=
  match tr with
  | [] => []
  | Log l msg :: tr' =>
      match l, lvl with
      | INFO, INFO | WARNING, WARNING | ERROR, ERROR => msg :: logged lvl tr'
      | _, _ => logged lvl tr'
      end
  | _ :: tr' => logged lvl tr'
  end.

(** A probe attempt succeeds iff it returns status 200 (line 110). *)
Definition probe_ok (o : outcome Z) : bool :=
  match o with
  | Returned status => (status =? 200)%Z
  | Raised _ => false
  end.

(** ** The monad of the script *)

Section Script.

Context {W : Type} {E : Environment W}.

(** A computation reads and updates the collaborators' state and emits the
    events of its own calls. *)
Definition M (A : Type) : Type := W -> result A * W * list event.

Definition ret {A : Type} (a : A) : M A := fun w => (Ok a, w, []).

Definition bind {A B : Type} (m : M A) (k : A -> M B) : M B :=
  fun w =>
    match m w with
    | (Ok a, w1, t1) =>
        match k a w1 with
        | (r, w2, t2) => (r, w2, t1 ++ t2)
        end
    | (Exc e, w1, t1) => (Exc e, w1, t1)
    | (SysExit c, w1, t1) => (SysExit c, w1, t1)
    | (BaseExc i, w1, t1) => (BaseExc i, w1, t1)
    end.

Definition raise {A : Type} (e : pyexc) : M A := fun w => (Exc e, w, []).

(** [sys.exit(code)]. *)
Definition sys_exit {A : Type} (code : Z) : M A := fun w => (SysExit code, w, []).

(** [try: m  except Exception as e: handler e]. *)
Definition try_except {A : Type} (m : M A) (handler : pyexc -> M A) : M A :=
  fun w =>
    match m w with
    | (Exc e, w1, t1) =>
        match handler e w1 with
        | (r, w2, t2) => (r, w2, t1 ++ t2)
        end
    | other => other
    end.

Definition run (cmd : list pyval) : M CompletedProcess :=
  fun w =>
    match env_run cmd w with
    | (Answer o, w1) => (of_outcome o, w1, [SubprocessRun cmd o])
    | (Interrupt i, w1) => (BaseExc i, w1, [Interrupted i])
    end.

Definition get (url : string) (timeout : Z) : M Z :=
  fun w =>
    match env_get url timeout w with
    | (Answer o, w1) => (of_outcome o, w1, [SessionGet url timeout o])
    | (Interrupt i, w1) => (BaseExc i, w1, [Interrupted i])
    end.

Definition sleep (seconds : Z) : M unit :=
  fun w =>
    match env_sleep seconds w with
    | (None, w1) => (Ok tt, w1, [Sleep seconds])
    | (Some i, w1) => (BaseExc i, w1, [Interrupted i])
    end.

Definition log (lvl : level) (msg : string) : M unit :=
  fun w => (Ok tt, w, [Log lvl msg]).

Definition print (msg : string) : M unit :=
  fun w => (Ok tt, w, [Stdout msg]).

End Script.

Declare Scope script_scope.
Delimit Scope script_scope with script.
Notation "x <- m ;; k" := (bind m (fun x => k))
  (at level 100, m at next level, right associativity) : script_scope.
Notation "m ;; k" := (bind m (fun _ => k))
  (at level 100, right associativity) : script_scope.
Local Open Scope script_scope.

(** ** [DeploymentManager] (lines 39-123) *)

Section DeploymentManager.

Context {W : Type} {E : Environment W}.

(** [self.kubectl_cmd] (line 44). *)
Definition kubectl_cmd (config : DeployConfig) : list pyval :=
  [PStr "kubectl"; PStr "-n"; namespace config].

(** The command of [_update_deployment] (lines 75-79). *)
Definition update_cmd (config : DeployConfig) : list pyval :=
  kubectl_cmd config ++
  [PStr "set"; PStr "image";
   PStr (f_string ["deployment/"; py_str (service_name config)]);
   PStr (f_string [py_str (service_name config); "="; py_str (image_tag config)])].

(** The command of [_wait_for_rollout] (lines 92-96). *)
Definition rollout_cmd (config : DeployConfig) : list pyval :=
  kubectl_cmd config ++
  [PStr "rollout"; PStr "status";
   PStr (f_string ["deployment/"; py_str (service_name config)]);
   PStr (f_string ["--timeout="; py_str (timeout_seconds config); "s"])].

(** The command of [_rollback] (line 122). *)
Definition undo_cmd (config : DeployConfig) : list pyval :=
  kubectl_cmd config ++
  [PStr "rollout"; PStr "undo";
   PStr (f_string ["deployment/"; py_str (service_name config)])].

(** [health_url] (lines 103-104). *)
Definition health_url (config : DeployConfig) : string :=
  f_string [f_string ["http://"; py_str (service_name config); ".";
                      py_str (namespace config); ".svc.cluster.local"];
            py_str (health_check_path config)].

(** [_update_deployment] (lines 73-88). *)
Definition update_deployment (config : DeployConfig) : M bool :=
  result <- run (update_cmd config) ;;
  if negb (returncode result =? 0)%Z then
    log ERROR (f_string ["Failed to update deployment: "; stderr result]) ;;
    ret false
  else
    log INFO "Deployment updated successfully" ;;
    ret true.

(** [_wait_for_rollout] (lines 90-99). *)
Definition wait_for_rollout (config : DeployConfig) : M bool :=
  result <- run (rollout_cmd config) ;;
  ret (returncode result =? 0)%Z.

(** One iteration of the loop of [_verify_health] (lines 108-115); the value
    is [true] when the iteration executes [return True], [false] when control
    reaches the end of the loop body. *)
Definition health_attempt (url : string) (attempt : nat) : M bool :=
  try_except
    (status <- get url 10 ;;
     if (status =? 200)%Z then
       log INFO "Health check passed" ;;
       ret true
     else ret false)
    (fun e =>
       log WARNING (f_string ["Health check attempt ";
                              int_str (Z.of_nat attempt + 1);
                              " failed: "; exc_str e]) ;;
       sleep 10 ;;
       ret false).

(** [for attempt in attempts: ...] followed by [return False] (line 117). *)
Fixpoint health_loop (url : string) (attempts : list nat) : M bool :=
  match attempts with
  | [] => ret false
  | attempt :: rest =>
      returned <- health_attempt url attempt ;;
      if returned then ret true else health_loop url rest
  end.

(** [_verify_health] (lines 101-117); [range(5)] is [seq 0 5]. *)
Definition verify_health (config : DeployConfig) : M bool :=
  health_loop (health_url config) (seq 0 5).

(** [_rollback] (lines 119-123): the [CompletedProcess] is dropped. *)
Definition rollback (config : DeployConfig) : M unit :=
  log WARNING "Rolling back deployment" ;;
  _ <- run (undo_cmd config) ;;
  ret tt.

(** [deploy] (lines 46-71). *)
Definition deploy (config : DeployConfig) : M bool :=
  try_except
    (log INFO (f_string ["Starting deployment of "; py_str (service_name config);
                         ":"; py_str (image_tag config)]) ;;
     updated <- update_deployment config ;;
     if negb updated then ret false
     else
       rolled_out <- wait_for_rollout config ;;
       if negb rolled_out then
         (if truthy (rollback_on_failure config) then rollback config else ret tt) ;;
         ret false
       else
         healthy <- verify_health config ;;
         if negb healthy then
           log ERROR "Health check failed after deployment" ;;
           ret false
         else
           log INFO "Deployment completed successfully" ;;
           ret true)
    (fun e =>
       log ERROR (f_string ["Deployment failed: "; exc_str e]) ;;
       ret false).

(** [deploy] returns a bare [bool].  [DeployResult] names, in the words of
    the specification, the [return] statement a run of [deploy] leaves by:
    line 53 ([UpdateFailed]), line 59 after [_rollback] ([RolledBack]) or
    without it ([RolloutFailed]), line 64 ([HealthCheckFailed]), line 67
    ([Success]); [DeployError] is line 71, the [except Exception] clause,
    with the exception caught. *)
Inductive DeployResult : Type :=
| Success
| UpdateFailed
| RolloutFailed
| RolledBack
| HealthCheckFailed
| DeployError (e : pyexc).

(** The [bool] that [deploy] returns at each of them. *)
Definition succeeded (r : DeployResult) : bool :=
  match r with
  | Success => true
  | _ => false
  end.

(** [deploy] with each [return] labelled; [deploy_erasure] below shows that
    it is [deploy] but for the label. *)
Definition deploy_result (config : DeployConfig) : M DeployResult :=
  try_except
    (log INFO (f_string ["Starting deployment of "; py_str (service_name config);
                         ":"; py_str (image_tag config)]) ;;
     updated <- update_deployment config ;;
     if negb updated then ret UpdateFailed
     else
       rolled_out <- wait_for_rollout config ;;
       if negb rolled_out then
         if truthy (rollback_on_failure config) then
           rollback config ;;
           ret RolledBack
         else ret RolloutFailed
       else
         healthy <- verify_health config ;;
         if negb healthy then
           log ERROR "Health check failed after deployment" ;;
           ret HealthCheckFailed
         else
           log INFO "Deployment completed successfully" ;;
           ret Success)
    (fun e =>
       log ERROR (f_string ["Deployment failed: "; exc_str e]) ;;
       ret (DeployError e)).

(** The first log line of [deploy] (line 49) and the one of its [except]
    clause (line 70). *)
Definition starting (config : DeployConfig) : event :=
  Log INFO (f_string ["Starting deployment of "; py_str (service_name config);
                      ":"; py_str (image_tag config)]).

Definition failing (e : pyexc) : event :=
  Log ERROR (f_string ["Deployment failed: "; exc_str e]).

End DeploymentManager.

(** ** [load_config] and [main] (lines 125-161) *)

Section Main.

Context {W : Type} {E : Environment W}.

(** The fields of the dataclass, in declaration order: the keyword
    parameters of its generated [__init__]. *)
Definition field_names : list string :=
  ["service_name"; "image_tag"; "namespace"; "replicas";
   "health_check_path"; "timeout_seconds"; "rollback_on_failure"].

(** [**data] needs every key of the mapping to be a string. *)
Fixpoint keywords (items : list (pyval * pyval)) : option (list (string * pyval)) :=
  match items with
  | [] => Some []
  | (PStr k, v) :: rest =>
      match keywords rest with
      | Some kw => Some ((k, v) :: kw)
      | None => None
      end
  | _ :: _ => None
  end.

Fixpoint kwarg (name : string) (kw : list (string * pyval)) : option pyval :=
  match kw with
  | [] => None
  | (k, v) :: rest => if k =? name then Some v else kwarg name rest
  end.

(** A keyword parameter with a default value. *)
Definition kwarg_default (name : string) (default : pyval)
    (kw : list (string * pyval)) : pyval :=
  match kwarg name kw with
  | Some v => v
  | None => default
  end.

Definition TypeError (msg : string) : pyexc :=
  {| exc_class := "TypeError"; exc_str := msg |}.

(** [DeployConfig( **data )] (line 135): the call of the generated [__init__]
    (lines 31-37).  [service_name] and [image_tag] have no default and are
    required; a key that is no field is refused; no value is inspected.  The
    interpreter's messages are abridged. *)
Definition DeployConfig_init (data : document) : outcome DeployConfig :=
  match data with
  | NotMapping _ => Raised (TypeError "argument after ** must be a mapping")
  | Mapping items =>
      match keywords items with
      | None => Raised (TypeError "keywords must be strings")
      | Some kw =>
          match find (fun kv => negb (existsb (String.eqb (fst kv)) field_names)) kw with
          | Some (k, _) =>
              Raised (TypeError (f_string ["__init__() got an unexpected keyword argument '";
                                           k; "'"]))
          | None =>
              match kwarg "service_name" kw, kwarg "image_tag" kw with
              | Some name, Some tag =>
                  Returned
                    {| service_name := name;
                       image_tag := tag;
                       namespace := kwarg_default "namespace" (PStr "default") kw;
                       replicas := kwarg_default "replicas" (PInt 3) kw;
                       health_check_path := kwarg_default "health_check_path" (PStr "/health") kw;
                       timeout_seconds := kwarg_default "timeout_seconds" (PInt 300) kw;
                       rollback_on_failure := kwarg_default "rollback_on_failure" (PBool true) kw |}
              | None, _ =>
                  Raised (TypeError "__init__() missing required positional argument: 'service_name'")
              | Some _, None =>
                  Raised (TypeError "__init__() missing required positional argument: 'image_tag'")
              end
          end
      end
  end.

(** [load_config] (lines 125-135). *)
Definition load_config (config_path : string) : M DeployConfig :=
  fun w =>
    match env_exists config_path w with
    | Answer (Returned found) =>
        if negb found then
          raise {| exc_class := "FileNotFoundError";
                   exc_str := f_string ["Config file not found: "; config_path] |} w
        else
          match env_load config_path w with
          | Answer (Returned data) => (of_outcome (DeployConfig_init data), w, [])
          | Answer (Raised e) => (Exc e, w, [])
          | Interrupt i => (BaseExc i, w, [Interrupted i])
          end
    | Answer (Raised e) => (Exc e, w, [])
    | Interrupt i => (BaseExc i, w, [Interrupted i])
    end.

(** [main] (lines 137-161), with [sys.argv] as argument.  The emoji that
    opens each of the last two log messages is left out. *)
Definition main (argv : list string) : M unit :=
  (if negb (length argv =? 3)%nat then
     print "Usage: deploy.py <config-file> <image-tag>" ;;
     sys_exit 1
   else ret tt) ;;
  let config_file := nth 1 argv "" in
  let image_tag := nth 2 argv "" in
  try_except
    (config <- load_config config_file ;;
     let config := set_image_tag config (PStr image_tag) in
     success <- deploy config ;;
     if success then
       log INFO "Deployment successful!" ;;
       sys_exit 0
     else
       log ERROR "Deployment failed!" ;;
       sys_exit 1)
    (fun e =>
       log ERROR (f_string ["Script failed: "; exc_str e]) ;;
       sys_exit 1).

End Main.

(** ** The invariant the specification states for a [DeployConfig] *)






(** ** Scripted collaborators *)

(** Collaborators that answer from a script: the results of the successive
    [subprocess.run] calls, the results of the successive probes, the files
    of the configuration source, and a clock that the sleeps advance. *)
Module Scripted.

Record world : Type := mkWorld {
  processes : list (outcome CompletedProcess);
  responses : list (outcome Z);
  files : list (string * outcome document);
  clock : Z
}.

Definition exhausted : pyexc :=
  {| exc_class := "RuntimeError"; exc_str := "no scripted answer left" |}.

Fixpoint lookup_file (path : string) (fs : list (string * outcome document))
    : option (outcome document) :=
  match fs with
  | [] => None
  | (p, d) :: rest => if p =? path then Some d else lookup_file path rest
  end.

Definition scripted_run (cmd : list pyval) (w : world)
    : outcome CompletedProcess * world :=
  match processes w with
  | [] => (Raised exhausted, w)
  | o :: rest =>
      (o, {| processes := rest; responses := responses w;
             files := files w; clock := clock w |})
  end.

Definition scripted_get (url : string) (timeout : Z) (w : world)
    : outcome Z * world :=
  match responses w with
  | [] => (Raised exhausted, w)
  | o :: rest =>
      (o, {| processes := processes w; responses := rest;
             files := files w; clock := clock w |})
  end.

Definition scripted_sleep (seconds : Z) (w : world) : world :=
  {| processes := processes w; responses := responses w;
     files := files w; clock := (clock w + seconds)%Z |}.

Definition scripted_exists (path : string) (w : world) : bool :=
  match lookup_file path (files w) with
  | Some _ => true
  | None => false
  end.

Definition scripted_load (path : string) (w : world) : outcome document :=
  match lookup_file path (files w) with
  | Some d => d
  | None =>
      Raised {| exc_class := "FileNotFoundError";
                exc_str := "[Errno 2] No such file or directory" |}
  end.

#[global] Instance collaborators : Collaborators world := {
  subprocess_run := scripted_run;
  session_get := scripted_get;
  asyncio_sleep := scripted_sleep;
  path_exists := scripted_exists;
  open_safe_load := scripted_load
}.

(** A command that exits with status [rc]. *)
Definition exits (rc : Z) : outcome CompletedProcess :=
  Returned {| returncode := rc; stdout := ""; stderr := "" |}.

Definition script (ps : list (outcome CompletedProcess)) (rs : list (outcome Z))
    : world :=
  {| processes := ps; responses := rs; files := []; clock := 0 |}.

(** The configuration of the scenarios of section 8 of the specification. *)
Definition api_config (rollback : bool) : DeployConfig :=
  {| service_name := PStr "api";
     image_tag := PStr "registry/api:v2";
     namespace := PStr "prod";
     replicas := PInt 3;
     health_check_path := PStr "/health";
     timeout_seconds := PInt 60;
     rollback_on_failure := PBool rollback |}.

Definition connection_refused : pyexc :=
  {| exc_class := "ClientConnectorError"; exc_str := "Cannot connect to host" |}.

Definition kubectl_missing : pyexc :=
  {| exc_class := "FileNotFoundError";
     exc_str := "[Errno 2] No such file or directory: 'kubectl'" |}.

(** A configuration file with the recognised fields and no [image_tag]. *)
Definition no_image_tag : document :=
  Mapping [(PStr "service_name", PStr "api"); (PStr "namespace", PStr "prod");
           (PStr "timeout_seconds", PInt 60)].


(** A well-formed configuration file, with an [image_tag] of its own. *)
Definition api_yaml : document :=
  Mapping [(PStr "service_name", PStr "api"); (PStr "image_tag", PStr "old");
           (PStr "namespace", PStr "prod"); (PStr "timeout_seconds", PInt 60)].

(** The update and the rollout wait succeed, then the five probes answer 503. *)
Definition unhealthy : world :=
  script [exits 0; exits 0]
         [Returned 503%Z; Returned 503%Z; Returned 503%Z; Returned 503%Z; Returned 503%Z].

Definition with_file (path : string) (d : document) (w : world) : world :=
  {| processes := processes w; responses := responses w;
     files := (path, Returned d) :: files w; clock := clock w |}.

End Scripted.

(** ** Observations on results *)

Definition result_map {A B : Type} (f : A -> B) (r : result A) : result B :=
  match r with
  | Ok a => Ok (f a)
  | Exc e => Exc e
  | SysExit c => SysExit c
  | BaseExc i => BaseExc i
  end.

(** A probe attempt that ended in an exception (timeout, connection error). *)
Definition raised (o : outcome Z) : bool :=
  match o with
  | Returned _ => false
  | Raised _ => true
  end.

(** What a run of the probe loop over [n] attempts leaves behind when it
    returns [b]: no backend command; at most [n] probes; a sleep of 10
    seconds and a warning for each probe that raised, and for no other; when
    [b] is [true] the last probe returned 200 and none before it did; when
    [b] is [false] all [n] probes were made and none returned 200. *)
Definition health_post (n : nat) (b : bool) (tr : list event) : Prop :=
  (forall op, invocations op tr = 0) /\
  length (probes tr) <= n /\
  sleeps tr = map (fun _ => 10%Z) (filter raised (probes tr)) /\
  length (logged WARNING tr) = length (filter raised (probes tr)) /\
  logged ERROR tr = [] /\
  (b = true ->
   exists failed, probes tr = failed ++ [Returned 200%Z] /\
                  Forall (fun o => probe_ok o = false) failed) /\
  (b = false ->
   length (probes tr) = n /\ Forall (fun o => probe_ok o = false) (probes tr)).

(** The command lines a run handed to [subprocess.run], in order. *)
Fixpoint commands (tr : list event) : list (list pyval) :=
  match tr with
  | [] => []
  | SubprocessRun cmd _ :: tr' => cmd :: commands tr'
  | _ :: tr' => commands tr'
  end.

(** The requests of a run: the URL and the timeout of each [session.get]. *)
Fixpoint requests (tr : list event) : list (string * Z) :=
  match tr with
  | [] => []
  | SessionGet url timeout _ :: tr' => (url, timeout) :: requests tr'
  | _ :: tr' => requests tr'
  end.

(** The warnings of line 114 for the probes [ps] made at the loop indices
    [attempts]: one for each probe that raised, numbered from 1. *)
Fixpoint attempt_warnings (attempts : list nat) (ps : list (outcome Z)) : list string :=
  match attempts, ps with
  | attempt :: rest, Raised e :: ps' =>
      f_string ["Health check attempt "; int_str (Z.of_nat attempt + 1);
                " failed: "; exc_str e]
      :: attempt_warnings rest ps'
  | _ :: rest, Returned _ :: ps' => attempt_warnings rest ps'
  | _, _ => []
  end.

(** Total of a list of durations. *)
Definition total (durations : list Z) : Z := fold_right Z.add 0%Z durations.

(** The interruptions of a run, in order. *)
Fixpoint interruptions (tr : list event) : list interruption :=
  match tr with
  | [] => []
  | Interrupted i :: tr' => i :: interruptions tr'
  | _ :: tr' => interruptions tr'
  end.

(** A computation that never calls [sys.exit] and ends in one of two ways:
    it returns or raises an [Exception] and no call was interrupted, or an
    interruption goes through it, and this is the only one of the run. *)
Definition finishes {W A : Type} (m : W -> result A * W * list event) : Prop :=
  forall w,
    match m w with
    | (Ok _, _, tr) | (Exc _, _, tr) => interruptions tr = []
    | (BaseExc i, _, tr) => interruptions tr = [i]
    | (SysExit _, _, _) => False
    end.

(** ** Scripted collaborators that can be interrupted *)

(** The collaborators of [Scripted] under a schedule: the n-th entry says
    whether the n-th call to [subprocess.run], [session.get] or
    [asyncio.sleep] is interrupted, and by what; calls beyond the schedule
    are not interrupted. *)
Module Interrupting.

Record world : Type := mkWorld {
  inner : Scripted.world;
  schedule : list (option interruption)
}.

Definition next (w : world) : option interruption * list (option interruption) :=
  match schedule w with
  | [] => (None, [])
  | entry :: rest => (entry, rest)
  end.

Definition interrupting_run (cmd : list pyval) (w : world)
    : answer CompletedProcess * world :=
  match next w with
  | (Some i, rest) => (Interrupt i, {| inner := inner w; schedule := rest |})
  | (None, rest) =>
      match Scripted.scripted_run cmd (inner w) with
      | (o, w1) => (Answer o, {| inner := w1; schedule := rest |})
      end
  end.

Definition interrupting_get (url : string) (timeout : Z) (w : world)
    : answer Z * world :=
  match next w with
  | (Some i, rest) => (Interrupt i, {| inner := inner w; schedule := rest |})
  | (None, rest) =>
      match Scripted.scripted_get url timeout (inner w) with
      | (o, w1) => (Answer o, {| inner := w1; schedule := rest |})
      end
  end.

Definition interrupting_sleep (seconds : Z) (w : world)
    : option interruption * world :=
  match next w with
  | (Some i, rest) => (Some i, {| inner := inner w; schedule := rest |})
  | (None, rest) =>
      (None, {| inner := Scripted.scripted_sleep seconds (inner w); schedule := rest |})
  end.

Definition environment : Environment world := {|
  env_run := interrupting_run;
  env_get := interrupting_get;
  env_sleep := interrupting_sleep;
  env_exists path w := Answer (Returned (Scripted.scripted_exists path (inner w)));
  env_load path w := Answer (Scripted.scripted_load path (inner w))
|}.

(** The update and the rollout wait succeed, the first probe cannot
    connect, and the task is cancelled during the sleep that follows. *)
Definition cancelled_while_sleeping : world :=
  {| inner := Scripted.script [Scripted.exits 0; Scripted.exits 0]
                              [Raised Scripted.connection_refused; Returned 200%Z];
     schedule := [None; None; None; Some CancelledError] |}.

(** Ctrl-C while the update command runs, with a good configuration file. *)
Definition interrupted_update : world :=
  {| inner := Scripted.with_file "deploy.yaml" Scripted.api_yaml
                (Scripted.script [Scripted.exits 0; Scripted.exits 0] [Returned 200%Z]);
     schedule := [Some KeyboardInterrupt] |}.

End Interrupting.

(** * Properties *)

(** ** Traces *)

Lemma invocations_app op t1 t2 :
  invocations op (t1 ++ t2) = invocations op t1 + invocations op t2.
Proof.
  unfold invocations. rewrite filter_app, length_app. reflexivity.
Qed.

Lemma probes_app t1 t2 : probes (t1 ++ t2) = probes t1 ++ probes t2.
Proof.
  induction t1 as [|ev t1 IH]; simpl; [reflexivity|].
  destruct ev; simpl; rewrite IH; reflexivity.
Qed.

Lemma sleeps_app t1 t2 : sleeps (t1 ++ t2) = sleeps t1 ++ sleeps t2.
Proof.
  induction t1 as [|ev t1 IH]; simpl; [reflexivity|].
  destruct ev; simpl; rewrite IH; reflexivity.
Qed.

Lemma logged_app lvl t1 t2 : logged lvl (t1 ++ t2) = logged lvl t1 ++ logged lvl t2.
Proof.
  induction t1 as [|ev t1 IH]; simpl; [reflexivity|].
  destruct ev; simpl; try rewrite IH; try reflexivity.
  destruct lvl0, lvl; simpl; rewrite ?IH; reflexivity.
Qed.

(** The three command lines are told apart by their verbs, whatever the
    configuration. *)
Lemma backend_op_of_update config : backend_op_of (update_cmd config) = Some ApplyUpdate.
Proof. reflexivity. Qed.

Lemma backend_op_of_rollout config : backend_op_of (rollout_cmd config) = Some WaitForRollout.
Proof. reflexivity. Qed.

Lemma backend_op_of_undo config : backend_op_of (undo_cmd config) = Some Undo.
Proof. reflexivity. Qed.

Section AnyEnvironment.

Context {W : Type} {E : Environment W}.

(** ** Facts that hold in every environment *)

(** [deploy_result] differs from [deploy] by the label only: same final
    state, same trace, and the [bool] is [true] exactly for [Success]. *)
Lemma deploy_erasure config w :
  deploy config w =
  match deploy_result config w with
  | (r, w', tr) => (result_map succeeded r, w', tr)
  end.
Proof.
  unfold deploy, deploy_result, try_except, bind, log, ret.
  destruct (update_deployment config w) as [[[[|]|e|c|i] w1] t1];
    cbn [negb]; try reflexivity.
  destruct (wait_for_rollout config w1) as [[[[|]|e|c|i] w2] t2];
    cbn [negb]; try reflexivity.
  - destruct (verify_health config w2) as [[[[|]|e|c|i] w3] t3]; reflexivity.
  - destruct (truthy (rollback_on_failure config)); [|reflexivity].
    destruct (rollback config w2) as [[[[]|e|c|i] w3] t3]; reflexivity.
Qed.

(** [main] with three arguments, by what [load_config] and [deploy] do. *)
Lemma main_run prog path tag w :
  main [prog; path; tag] w =
  match load_config path w with
  | (Ok config, w1, t1) =>
      match deploy (set_image_tag config (PStr tag)) w1 with
      | (Ok true, w2, t2) =>
          (SysExit 0%Z, w2, t1 ++ t2 ++ [Log INFO "Deployment successful!"])
      | (Ok false, w2, t2) =>
          (SysExit 1%Z, w2, t1 ++ t2 ++ [Log ERROR "Deployment failed!"])
      | (Exc e, w2, t2) =>
          (SysExit 1%Z, w2,
           (t1 ++ t2) ++ [Log ERROR (f_string ["Script failed: "; exc_str e])])
      | (SysExit c, w2, t2) => (SysExit c, w2, t1 ++ t2)
      | (BaseExc i, w2, t2) => (BaseExc i, w2, t1 ++ t2)
      end
  | (Exc e, w1, t1) =>
      (SysExit 1%Z, w1, t1 ++ [Log ERROR (f_string ["Script failed: "; exc_str e])])
  | (SysExit c, w1, t1) => (SysExit c, w1, t1)
  | (BaseExc i, w1, t1) => (BaseExc i, w1, t1)
  end.
Proof.
  unfold main, try_except, bind, ret, log, sys_exit.
  cbn [length Nat.eqb negb nth].
  destruct (load_config path w) as [[[config|e|c|i] w1] t1]; try reflexivity.
  destruct (deploy (set_image_tag config (PStr tag)) w1) as [[[[|]|e|c|i] w2] t2];
    reflexivity.
Qed.

End AnyEnvironment.

Section Stages.

Context {W : Type} {C : Collaborators W}.

(** ** The stages of [deploy], one call each *)

Lemma update_deployment_run config w :
  update_deployment config w =
  match subprocess_run (update_cmd config) w with
  | (Returned p, w1) =>
      if (returncode p =? 0)%Z then
        (Ok true, w1,
         [SubprocessRun (update_cmd config) (Returned p);
          Log INFO "Deployment updated successfully"])
      else
        (Ok false, w1,
         [SubprocessRun (update_cmd config) (Returned p);
          Log ERROR (f_string ["Failed to update deployment: "; stderr p])])
  | (Raised e, w1) => (Exc e, w1, [SubprocessRun (update_cmd config) (Raised e)])
  end.
Proof.
  unfold update_deployment, bind, run. cbn [env_run uninterrupted].
  destruct (subprocess_run (update_cmd config) w) as [[p|e] w1]; [|reflexivity].
  cbn [of_outcome]. destruct (returncode p =? 0)%Z; reflexivity.
Qed.

Lemma wait_for_rollout_run config w :
  wait_for_rollout config w =
  match subprocess_run (rollout_cmd config) w with
  | (Returned p, w1) =>
      (Ok (returncode p =? 0)%Z, w1, [SubprocessRun (rollout_cmd config) (Returned p)])
  | (Raised e, w1) => (Exc e, w1, [SubprocessRun (rollout_cmd config) (Raised e)])
  end.
Proof.
  unfold wait_for_rollout, bind, run. cbn [env_run uninterrupted].
  destruct (subprocess_run (rollout_cmd config) w) as [[p|e] w1]; reflexivity.
Qed.

Lemma rollback_run config w :
  rollback config w =
  match subprocess_run (undo_cmd config) w with
  | (Returned p, w1) =>
      (Ok tt, w1,
       [Log WARNING "Rolling back deployment";
        SubprocessRun (undo_cmd config) (Returned p)])
  | (Raised e, w1) =>
      (Exc e, w1,
       [Log WARNING "Rolling back deployment";
        SubprocessRun (undo_cmd config) (Raised e)])
  end.
Proof.
  unfold rollback, bind, run, log. cbn [env_run uninterrupted].
  destruct (subprocess_run (undo_cmd config) w) as [[p|e] w1]; reflexivity.
Qed.

(** One probe attempt: a response ends the attempt at once, with a log line
    only when its status is 200; an exception is logged and followed by a
    sleep of 10 seconds. *)
Lemma health_attempt_run url attempt w :
  health_attempt url attempt w =
  match session_get url 10 w with
  | (Returned status, w1) =>
      (Ok (status =? 200)%Z, w1,
       SessionGet url 10 (Returned status)
       :: if (status =? 200)%Z then [Log INFO "Health check passed"] else [])
  | (Raised e, w1) =>
      (Ok false, asyncio_sleep 10 w1,
       [SessionGet url 10 (Raised e);
        Log WARNING (f_string ["Health check attempt "; int_str (Z.of_nat attempt + 1);
                               " failed: "; exc_str e]);
        Sleep 10])
  end.
Proof.
  unfold health_attempt, try_except, bind, get. cbn [env_get uninterrupted].
  destruct (session_get url 10 w) as [[status|e] w1]; [|reflexivity].
  cbn [of_outcome]. destruct (status =? 200)%Z; reflexivity.
Qed.

End Stages.

Section HealthCheck.

Context {W : Type} {C : Collaborators W}.

(** ** The probe loop *)

Lemma health_loop_spec url attempts : forall w,
  exists b w' tr,
    health_loop url attempts w = (Ok b, w', tr) /\ health_post (length attempts) b tr.
Proof.
  induction attempts as [|attempt rest IH]; intros w.
  - exists false, w, []. split; [reflexivity|].
    unfold health_post. cbn.
    repeat split; try reflexivity; try discriminate; constructor.
  - cbn [health_loop]. unfold bind. rewrite health_attempt_run.
    destruct (session_get url 10 w) as [[status|e] w1].
    + destruct (status =? 200)%Z eqn:Hs.
      * apply Z.eqb_eq in Hs. subst status.
        exists true, w1,
          [SessionGet url 10 (Returned 200%Z); Log INFO "Health check passed"].
        split; [reflexivity|].
        unfold health_post. cbn.
        repeat split; try reflexivity; try discriminate; try lia.
        intros _. exists []. split; [reflexivity | constructor].
      * destruct (IH w1)
          as (b & w' & tr & Hrun & Hinv & Hlen & Hsl & Hwarn & Herr & Hpass & Hfail).
        rewrite Hrun. exists b, w', ([SessionGet url 10 (Returned status)] ++ tr).
        split; [destruct b; reflexivity|].
        unfold health_post. cbn [app probes sleeps logged length filter raised].
        split; [exact Hinv|]. split; [lia|]. split; [exact Hsl|].
        split; [exact Hwarn|]. split; [exact Herr|]. split.
        -- intros Hb. destruct (Hpass Hb) as (failed & Hp & Hall).
           exists (Returned status :: failed). rewrite Hp. split; [reflexivity|].
           constructor; [exact Hs | exact Hall].
        -- intros Hb. destruct (Hfail Hb) as [Hn Hall]. split; [lia|].
           constructor; [exact Hs | exact Hall].
    + destruct (IH (asyncio_sleep 10 w1))
        as (b & w' & tr & Hrun & Hinv & Hlen & Hsl & Hwarn & Herr & Hpass & Hfail).
      rewrite Hrun.
      eexists b, w', (_ ++ tr).
      split; [destruct b; reflexivity|].
      unfold health_post. cbn [app probes sleeps logged length filter raised map].
      split; [exact Hinv|]. split; [lia|]. split; [rewrite Hsl; reflexivity|].
      split; [lia|]. split; [exact Herr|]. split.
      * intros Hb. destruct (Hpass Hb) as (failed & Hp & Hall).
        exists (Raised e :: failed). rewrite Hp. split; [reflexivity|].
        constructor; [reflexivity | exact Hall].
      * intros Hb. destruct (Hfail Hb) as [Hn Hall]. split; [lia|].
        constructor; [reflexivity | exact Hall].
Qed.

Lemma verify_health_spec config w :
  exists b w' tr, verify_health config w = (Ok b, w', tr) /\ health_post 5 b tr.
Proof. exact (health_loop_spec (health_url config) (seq 0 5) w). Qed.

End HealthCheck.

Section Deploy.

Context {W : Type} {C : Collaborators W}.

(** ** [deploy], return statement by return statement *)

(** The whole of [deploy] as a decision tree over what the collaborators
    answer. *)
Lemma deploy_result_run config w :
  deploy_result config w =
  match subprocess_run (update_cmd config) w with
  | (Raised e, w1) =>
      (Ok (DeployError e), w1,
       [starting config; SubprocessRun (update_cmd config) (Raised e); failing e])
  | (Returned p, w1) =>
      if negb (returncode p =? 0)%Z then
        (Ok UpdateFailed, w1,
         [starting config; SubprocessRun (update_cmd config) (Returned p);
          Log ERROR (f_string ["Failed to update deployment: "; stderr p])])
      else
        let updated :=
          [starting config; SubprocessRun (update_cmd config) (Returned p);
           Log INFO "Deployment updated successfully"] in
        match subprocess_run (rollout_cmd config) w1 with
        | (Raised e, w2) =>
            (Ok (DeployError e), w2,
             updated ++ [SubprocessRun (rollout_cmd config) (Raised e); failing e])
        | (Returned q, w2) =>
            let waited := updated ++ [SubprocessRun (rollout_cmd config) (Returned q)] in
            if negb (returncode q =? 0)%Z then
              if truthy (rollback_on_failure config) then
                match subprocess_run (undo_cmd config) w2 with
                | (Returned u, w3) =>
                    (Ok RolledBack, w3,
                     waited ++ [Log WARNING "Rolling back deployment";
                                SubprocessRun (undo_cmd config) (Returned u)])
                | (Raised e, w3) =>
                    (Ok (DeployError e), w3,
                     waited ++ [Log WARNING "Rolling back deployment";
                                SubprocessRun (undo_cmd config) (Raised e); failing e])
                end
              else (Ok RolloutFailed, w2, waited)
            else
              match verify_health config w2 with
              | (Ok true, w3, t) =>
                  (Ok Success, w3,
                   waited ++ t ++ [Log INFO "Deployment completed successfully"])
              | (Ok false, w3, t) =>
                  (Ok HealthCheckFailed, w3,
                   waited ++ t ++ [Log ERROR "Health check failed after deployment"])
              | (Exc e, w3, t) => (Ok (DeployError e), w3, waited ++ t ++ [failing e])
              | (SysExit c, w3, t) => (SysExit c, w3, waited ++ t)
              | (BaseExc i, w3, t) => (BaseExc i, w3, waited ++ t)
              end
        end
  end.
Proof.
  unfold deploy_result, try_except, bind, log. cbv beta iota.
  rewrite update_deployment_run.
  destruct (subprocess_run (update_cmd config) w) as [[p|e] w1]; [|reflexivity].
  destruct (returncode p =? 0)%Z; [|reflexivity].
  cbn [negb]. rewrite wait_for_rollout_run.
  destruct (subprocess_run (rollout_cmd config) w1) as [[q|e] w2]; [|reflexivity].
  destruct (returncode q =? 0)%Z; cbn [negb].
  - destruct (verify_health config w2) as [[[[|]|e|c|i] w3] t];
      cbn [negb ret app]; rewrite <- ?app_assoc; reflexivity.
  - destruct (truthy (rollback_on_failure config)); [|reflexivity].
    rewrite rollback_run.
    destruct (subprocess_run (undo_cmd config) w2) as [[u|e] w3]; reflexivity.
Qed.

(** The probes of a whole run are those of its health check. *)
Lemma deploy_result_probes config w r w' tr :
  deploy_result config w = (Ok r, w', tr) ->
  length (probes tr) <= 5 /\
  (r = Success ->
   exists failed, probes tr = failed ++ [Returned 200%Z] /\
                  Forall (fun o => probe_ok o = false) failed) /\
  (r = HealthCheckFailed ->
   length (probes tr) = 5 /\ Forall (fun o => probe_ok o = false) (probes tr)).
Proof.
  rewrite deploy_result_run.
  destruct (subprocess_run (update_cmd config) w) as [[p|e] w1].
  2: { intros [= <- <- <-]. cbn. repeat split; try lia; discriminate. }
  destruct (returncode p =? 0)%Z; cbn [negb].
  2: { intros [= <- <- <-]. cbn. repeat split; try lia; discriminate. }
  destruct (subprocess_run (rollout_cmd config) w1) as [[q|e] w2].
  2: { intros [= <- <- <-]. cbn. repeat split; try lia; discriminate. }
  destruct (returncode q =? 0)%Z; cbn [negb].
  - destruct (verify_health_spec config w2)
      as (b & w3 & t & Hrun & _ & Hlen & _ & _ & _ & Hpass & Hfail).
    rewrite Hrun.
    assert (Hprobes : forall tail, probes tail = [] ->
              probes (starting config :: SubprocessRun (update_cmd config) (Returned p)
                      :: Log INFO "Deployment updated successfully"
                      :: SubprocessRun (rollout_cmd config) (Returned q)
                      :: t ++ tail) = probes t).
    { intros tail Htail. unfold starting. cbn [probes].
      rewrite probes_app, Htail, app_nil_r. reflexivity. }
    destruct b; intros [= <- <- <-]; rewrite Hprobes by reflexivity.
    + split; [exact Hlen|]. split; [intros _; apply Hpass; reflexivity | discriminate].
    + split; [exact Hlen|]. split; [discriminate | intros _; apply Hfail; reflexivity].
  - destruct (truthy (rollback_on_failure config)).
    + destruct (subprocess_run (undo_cmd config) w2) as [[u|e] w3];
        intros [= <- <- <-]; cbn; repeat split; try lia; discriminate.
    + intros [= <- <- <-]. cbn. repeat split; try lia; discriminate.
Qed.

(** X13.  When the undo command cannot even be run, [deploy] leaves by the
    [except] clause: the undo was attempted once and the [bool] is [False]
    all the same. *)
Lemma rollback_raising config w w1 w2 w3 p q e :
  truthy (rollback_on_failure config) = true ->
  subprocess_run (update_cmd config) w = (Returned p, w1) ->
  returncode p = 0%Z ->
  subprocess_run (rollout_cmd config) w1 = (Returned q, w2) ->
  returncode q <> 0%Z ->
  subprocess_run (undo_cmd config) w2 = (Raised e, w3) ->
  exists tr,
    deploy_result config w = (Ok (DeployError e), w3, tr) /\
    deploy config w = (Ok false, w3, tr) /\
    invocations Undo tr = 1.
Proof.
  intros Hflag Hupd Hp Hwait Hq Hundo.
  apply Z.eqb_eq in Hp. apply Z.eqb_neq in Hq.
  rewrite deploy_erasure, deploy_result_run, Hupd, Hp. cbn [negb].
  rewrite Hwait, Hq, Hflag, Hundo. cbn [negb].
  eexists. repeat split; reflexivity.
Qed.

End Deploy.

Section Failures.

Context {W : Type} {C : Collaborators W}.

(** ** The health check *)

(** C2.  The health check issues at most 5 probes and always returns.  It
    returns [true] exactly when one of the probes it issued gave status 200;
    that probe is then the last one issued and every probe before it failed.
    It returns [false] only with all 5 probes issued and failed, by status or
    by exception.  Accordingly a run of [deploy] makes at most 5 probes, ends
    with [Success] only on a 200 at its last probe, and ends with
    [HealthCheckFailed] only after 5 failed probes. *)
Theorem verify_health_at_most_five_probes (config : DeployConfig) (w : W) :
  (exists b w' tr,
      verify_health config w = (Ok b, w', tr) /\
      length (probes tr) <= 5 /\
      (b = true <-> Exists (fun o => o = Returned 200%Z) (probes tr)) /\
      (b = true ->
       exists failed, probes tr = failed ++ [Returned 200%Z] /\
                      Forall (fun o => probe_ok o = false) failed) /\
      (b = false ->
       length (probes tr) = 5 /\ Forall (fun o => probe_ok o = false) (probes tr))) /\
  (forall r w' tr,
      deploy_result config w = (Ok r, w', tr) ->
      length (probes tr) <= 5 /\
      (r = Success ->
       exists failed, probes tr = failed ++ [Returned 200%Z] /\
                      Forall (fun o => probe_ok o = false) failed) /\
      (r = HealthCheckFailed ->
       length (probes tr) = 5 /\ Forall (fun o => probe_ok o = false) (probes tr))).
Proof.
  split; [|intros r w' tr; apply deploy_result_probes].
  destruct (verify_health_spec config w)
    as (b & w' & tr & Hrun & _ & Hlen & _ & _ & _ & Hpass & Hfail).
  exists b, w', tr.
  split; [exact Hrun|]. split; [exact Hlen|].
  split; [|split; [exact Hpass | exact Hfail]].
  split.
  - intros Hb. destruct (Hpass Hb) as (failed & Hp & _). rewrite Hp.
    apply Exists_app. right. constructor. reflexivity.
  - intros Hex. destruct b; [reflexivity|].
    destruct (Hfail eq_refl) as [_ Hall].
    apply Exists_exists in Hex. destruct Hex as (o & Hin & Ho).
    rewrite Forall_forall in Hall. specialize (Hall o Hin).
    subst o. discriminate.
Qed.

(** ** Failure of the update and of the rollout wait *)

(** C4.  When the update command returns a non-zero status, [deploy] leaves
    by line 53 ([UpdateFailed], the [bool] is [False]) and the run invoked
    neither the rollout wait nor the undo, whatever the configuration. *)
Theorem update_failure_stops_the_run (config : DeployConfig) (w w1 : W)
    (p : CompletedProcess) :
  subprocess_run (update_cmd config) w = (Returned p, w1) ->
  returncode p <> 0%Z ->
  exists tr,
    deploy_result config w = (Ok UpdateFailed, w1, tr) /\
    deploy config w = (Ok false, w1, tr) /\
    invocations ApplyUpdate tr = 1 /\
    invocations WaitForRollout tr = 0 /\
    invocations Undo tr = 0.
Proof.
  intros Hupd Hrc. apply Z.eqb_neq in Hrc.
  rewrite deploy_erasure, deploy_result_run, Hupd, Hrc. cbn [negb].
  eexists. repeat split; reflexivity.
Qed.

(** C3.  With [rollback_on_failure] true, when the update succeeds and the
    rollout wait returns a non-zero status, the undo command is invoked
    exactly once and [deploy] leaves by line 59 after [_rollback]
    ([RolledBack], the [bool] is [False]), whatever status [u] the undo
    command itself exits with. *)
Theorem rollout_failure_rolls_back (config : DeployConfig) (w w1 w2 w3 : W)
    (p q u : CompletedProcess) :
  truthy (rollback_on_failure config) = true ->
  subprocess_run (update_cmd config) w = (Returned p, w1) ->
  returncode p = 0%Z ->
  subprocess_run (rollout_cmd config) w1 = (Returned q, w2) ->
  returncode q <> 0%Z ->
  subprocess_run (undo_cmd config) w2 = (Returned u, w3) ->
  exists tr,
    deploy_result config w = (Ok RolledBack, w3, tr) /\
    deploy config w = (Ok false, w3, tr) /\
    invocations Undo tr = 1 /\
    In (SubprocessRun (undo_cmd config) (Returned u)) tr.
Proof.
  intros Hflag Hupd Hp Hwait Hq Hundo.
  apply Z.eqb_eq in Hp. apply Z.eqb_neq in Hq.
  rewrite deploy_erasure, deploy_result_run, Hupd, Hp. cbn [negb].
  rewrite Hwait, Hq, Hflag, Hundo. cbn [negb].
  eexists. repeat split; try reflexivity.
  apply in_or_app. right. right. left. reflexivity.
Qed.

(** C5.  With [rollback_on_failure] false, when the rollout wait returns a
    non-zero status, the undo command is never invoked and [deploy] leaves by
    line 59 without [_rollback] ([RolloutFailed], the [bool] is [False]). *)
Theorem rollout_failure_without_rollback (config : DeployConfig) (w w1 w2 : W)
    (p q : CompletedProcess) :
  truthy (rollback_on_failure config) = false ->
  subprocess_run (update_cmd config) w = (Returned p, w1) ->
  returncode p = 0%Z ->
  subprocess_run (rollout_cmd config) w1 = (Returned q, w2) ->
  returncode q <> 0%Z ->
  exists tr,
    deploy_result config w = (Ok RolloutFailed, w2, tr) /\
    deploy config w = (Ok false, w2, tr) /\
    invocations Undo tr = 0.
Proof.
  intros Hflag Hupd Hp Hwait Hq.
  apply Z.eqb_eq in Hp. apply Z.eqb_neq in Hq.
  rewrite deploy_erasure, deploy_result_run, Hupd, Hp. cbn [negb].
  rewrite Hwait, Hq, Hflag. cbn [negb].
  eexists. repeat split; reflexivity.
Qed.


End Failures.

Section Outcomes.

Context {W : Type} {C : Collaborators W}.

(** ** Every run is classified, and only a failed rollout wait is undone *)

Lemma deploy_total (config : DeployConfig) (w : W) :
  exists r w' tr,
    deploy_result config w = (Ok r, w', tr) /\
    deploy config w = (Ok (succeeded r), w', tr).
Proof.
  rewrite deploy_erasure, deploy_result_run.
  destruct (subprocess_run (update_cmd config) w) as [[p|e] w1];
    [|do 3 eexists; split; reflexivity].
  destruct (returncode p =? 0)%Z; cbn [negb];
    [|do 3 eexists; split; reflexivity].
  destruct (subprocess_run (rollout_cmd config) w1) as [[q|e] w2];
    [|do 3 eexists; split; reflexivity].
  destruct (returncode q =? 0)%Z; cbn [negb].
  - destruct (verify_health_spec config w2) as (b & w3 & t & Hrun & _).
    rewrite Hrun. destruct b; do 3 eexists; split; reflexivity.
  - destruct (truthy (rollback_on_failure config));
      [|do 3 eexists; split; reflexivity].
    destruct (subprocess_run (undo_cmd config) w2) as [[u|e] w3];
      do 3 eexists; split; reflexivity.
Qed.

(** C6.  In every run of [deploy]: a run that ends with [HealthCheckFailed]
    had its update and its rollout wait succeed, made its 5 probes and did
    not invoke the undo command; and a run that invoked the undo command
    invoked it once, under a true [rollback_on_failure], after a rollout
    wait that returned a non-zero status, and made no probe. *)
Theorem undo_only_after_rollout_failure (config : DeployConfig) (w w' : W)
    (r : result DeployResult) (tr : list event) :
  deploy_result config w = (r, w', tr) ->
  (r = Ok HealthCheckFailed ->
   invocations Undo tr = 0 /\ length (probes tr) = 5 /\
   exists p w1 q w2,
     subprocess_run (update_cmd config) w = (Returned p, w1) /\
     returncode p = 0%Z /\
     subprocess_run (rollout_cmd config) w1 = (Returned q, w2) /\
     returncode q = 0%Z) /\
  (invocations Undo tr <> 0 ->
   invocations Undo tr = 1 /\ probes tr = [] /\
   truthy (rollback_on_failure config) = true /\
   exists p w1 q w2,
     subprocess_run (update_cmd config) w = (Returned p, w1) /\
     returncode p = 0%Z /\
     subprocess_run (rollout_cmd config) w1 = (Returned q, w2) /\
     returncode q <> 0%Z).
Proof.
  rewrite deploy_result_run.
  destruct (subprocess_run (update_cmd config) w) as [[p|e] w1] eqn:Hupd.
  2: { intros [= <- <- <-]. split; [discriminate|]. intros Hn. now destruct Hn. }
  destruct (returncode p =? 0)%Z eqn:Hp; cbn [negb].
  2: { intros [= <- <- <-]. split; [discriminate|]. intros Hn. now destruct Hn. }
  apply Z.eqb_eq in Hp.
  destruct (subprocess_run (rollout_cmd config) w1) as [[q|e] w2] eqn:Hwait.
  2: { intros [= <- <- <-]. split; [discriminate|]. intros Hn. now destruct Hn. }
  destruct (returncode q =? 0)%Z eqn:Hq; cbn [negb].
  - apply Z.eqb_eq in Hq.
    destruct (verify_health_spec config w2)
      as (b & w3 & t & Hrun & Hinv & _ & _ & _ & _ & _ & Hfail).
    rewrite Hrun.
    assert (Hno : forall tail, invocations Undo tail = 0 ->
              invocations Undo
                (([starting config; SubprocessRun (update_cmd config) (Returned p);
                   Log INFO "Deployment updated successfully"] ++
                  [SubprocessRun (rollout_cmd config) (Returned q)]) ++ t ++ tail) = 0).
    { intros tail Htail. rewrite !invocations_app, Hinv, Htail. reflexivity. }
    destruct b; intros [= <- <- <-].
    + split; [discriminate|]. intros Hn. destruct Hn. apply Hno. reflexivity.
    + split.
      * intros _. split; [apply Hno; reflexivity|]. split.
        -- unfold starting. cbn [probes]. rewrite probes_app. cbn [probes].
           rewrite app_nil_r.
           apply (Hfail eq_refl).
        -- exists p, w1, q, w2. auto.
      * intros Hn. destruct Hn. apply Hno. reflexivity.
  - apply Z.eqb_neq in Hq.
    destruct (truthy (rollback_on_failure config)) eqn:Hflag.
    + destruct (subprocess_run (undo_cmd config) w2) as [[u|e] w3];
        intros [= <- <- <-]; (split; [discriminate|]); intros _;
        (split; [reflexivity|]); (split; [reflexivity|]); (split; [reflexivity|]);
        exists p, w1, q, w2; auto.
    + intros [= <- <- <-]. split; [discriminate|].
      intros Hn. now destruct Hn.
Qed.

End Outcomes.

Section Configuration.

Context {W : Type} {C : Collaborators W}.

(** ** Loading the configuration *)

Lemma DeployConfig_init_returned data config :
  DeployConfig_init data = Returned config ->
  exists items kw,
    data = Mapping items /\ keywords items = Some kw /\
    kwarg "service_name" kw = Some (service_name config) /\
    kwarg "image_tag" kw = Some (image_tag config) /\
    namespace config = kwarg_default "namespace" (PStr "default") kw /\
    replicas config = kwarg_default "replicas" (PInt 3) kw /\
    health_check_path config = kwarg_default "health_check_path" (PStr "/health") kw /\
    timeout_seconds config = kwarg_default "timeout_seconds" (PInt 300) kw /\
    rollback_on_failure config = kwarg_default "rollback_on_failure" (PBool true) kw.
Proof.
  unfold DeployConfig_init. destruct data as [items|v]; [|discriminate].
  destruct (keywords items) as [kw|] eqn:Hkw; [|discriminate].
  destruct (find _ kw) as [[k v]|]; [discriminate|].
  destruct (kwarg "service_name" kw) as [name|] eqn:Hname; [|discriminate].
  destruct (kwarg "image_tag" kw) as [tag|] eqn:Htag; [|discriminate].
  intros [= <-]. exists items, kw.
  cbn [service_name image_tag namespace replicas health_check_path
       timeout_seconds rollback_on_failure].
  repeat split; assumption.
Qed.

Lemma DeployConfig_init_needs_image_tag items kw :
  keywords items = Some kw ->
  kwarg "image_tag" kw = None ->
  exists e, DeployConfig_init (Mapping items) = Raised e /\ exc_class e = "TypeError".
Proof.
  intros Hkw Htag. unfold DeployConfig_init. rewrite Hkw.
  destruct (find _ kw) as [[k v]|]; [eexists; split; reflexivity|].
  rewrite Htag.
  destruct (kwarg "service_name" kw); eexists; split; reflexivity.
Qed.

(** [load_config] reads the collaborators' state and neither changes it nor
    calls the backend. *)
Lemma load_config_run path w :
  load_config path w =
  if path_exists path w then
    match open_safe_load path w with
    | Returned data => (of_outcome (DeployConfig_init data), w, [])
    | Raised e => (Exc e, w, [])
    end
  else
    (Exc {| exc_class := "FileNotFoundError";
            exc_str := f_string ["Config file not found: "; path] |}, w, []).
Proof.
  unfold load_config, raise. cbn [env_exists env_load uninterrupted].
  destruct (path_exists path w); [|reflexivity].
  destruct (open_safe_load path w); reflexivity.
Qed.

End Configuration.

Section ConfigurationSource.

Context {W : Type} {C : Collaborators W}.


(** C8 (amended).  When the configuration loads, [main] deploys it with
    [image_tag] set to its second argument, whatever the file gives for
    [image_tag], and exits with 0 or 1 as [deploy] returns [True] or [False];
    but the file has to give an [image_tag]: for a mapping without that key
    [load_config] raises a [TypeError], and [main] logs it and exits with 1
    without a call to the backend. *)
Theorem image_tag_comes_from_argv (prog path tag : string) (w : W) :
  (forall config w' tr,
      load_config path w = (Ok config, w', tr) ->
      let deployed := set_image_tag config (PStr tag) in
      image_tag deployed = PStr tag /\
      (forall other, set_image_tag (set_image_tag config other) (PStr tag) = deployed) /\
      (exists items kw, open_safe_load path w = Returned (Mapping items) /\
                        keywords items = Some kw /\
                        kwarg "image_tag" kw = Some (image_tag config)) /\
      exists b w2 t2,
        deploy deployed w = (Ok b, w2, t2) /\
        main [prog; path; tag] w =
        (SysExit (if b then 0 else 1)%Z, w2,
         t2 ++ [if b then Log INFO "Deployment successful!"
                else Log ERROR "Deployment failed!"])) /\
  (forall items kw,
      path_exists path w = true ->
      open_safe_load path w = Returned (Mapping items) ->
      keywords items = Some kw ->
      kwarg "image_tag" kw = None ->
      exists e,
        load_config path w = (Exc e, w, []) /\
        exc_class e = "TypeError" /\
        main [prog; path; tag] w =
        (SysExit 1%Z, w, [Log ERROR (f_string ["Script failed: "; exc_str e])])).
Proof.
  split.
  - intros config w' tr Hload deployed.
    split; [reflexivity|]. split; [reflexivity|].
    assert (Hload' := Hload). rewrite load_config_run in Hload'.
    destruct (path_exists path w); [|discriminate].
    destruct (open_safe_load path w) as [data|e]; [|discriminate].
    destruct (DeployConfig_init data) as [config'|e] eqn:Hinit; [|discriminate].
    injection Hload' as Hc Hw Ht. subst config' w' tr.
    destruct (DeployConfig_init_returned data config Hinit)
      as (items & kw & -> & Hkw & _ & Htag & _).
    split; [exists items, kw; auto|].
    destruct (deploy_total deployed w) as (r & w2 & t2 & _ & Hrun).
    exists (succeeded r), w2, t2. split; [exact Hrun|].
    rewrite main_run, Hload. fold deployed. rewrite Hrun.
    destruct (succeeded r); reflexivity.
  - intros items kw Hexists Hopen Hkw Htag.
    destruct (DeployConfig_init_needs_image_tag items kw Hkw Htag) as (e & Hinit & Hclass).
    exists e. rewrite main_run, load_config_run, Hexists, Hopen, Hinit.
    repeat split; [exact Hclass].
Qed.

End ConfigurationSource.

(** ** Scenarios *)

Import Scripted.

(** C1.  The scenario of the specification, run on the code: with a
    successful update and rollout wait and probes answering 503, 503, 200,
    [deploy] succeeds at the third probe, but there is no sleep and no warning
    between the probes, and the clock has not moved.  Only a probe that
    raises is followed by them ([health_attempt_run]). *)
Theorem non_200_probes_are_retried_at_once :
  exists w' tr,
    deploy_result (api_config true)
                  (script [exits 0; exits 0]
                          [Returned 503%Z; Returned 503%Z; Returned 200%Z])
    = (Ok Success, w', tr) /\
    probes tr = [Returned 503%Z; Returned 503%Z; Returned 200%Z] /\
    sleeps tr = [] /\
    logged WARNING tr = [] /\
    clock w' = 0%Z.
Proof.
  do 2 eexists. split; [vm_compute; reflexivity|]. repeat split; reflexivity.
Qed.

(** The same scenario with probes that raise instead: each failed attempt
    is logged with its number and followed by a sleep of 10 seconds. *)
Example raised_probes_are_delayed :
  exists w' tr,
    deploy_result (api_config true)
                  (script [exits 0; exits 0]
                          [Raised connection_refused; Raised connection_refused;
                           Returned 200%Z])
    = (Ok Success, w', tr) /\
    sleeps tr = [10%Z; 10%Z] /\
    logged WARNING tr =
      ["Health check attempt 1 failed: Cannot connect to host";
       "Health check attempt 2 failed: Cannot connect to host"] /\
    clock w' = 20%Z.
Proof.
  do 2 eexists. split; [vm_compute; reflexivity|]. repeat split; reflexivity.
Qed.

(** Five probes that answer 503: the run ends with [HealthCheckFailed]
    after exactly 5 probes. *)
Lemma verify_health_at_most_five_probes_witness :
  length (probes (snd (deploy_result (api_config true) unhealthy))) = 5.
Proof.
  destruct (verify_health_at_most_five_probes (api_config true) unhealthy)
    as [_ Hdeploy].
  destruct (Hdeploy HealthCheckFailed
              (snd (fst (deploy_result (api_config true) unhealthy)))
              (snd (deploy_result (api_config true) unhealthy)))
    as (_ & _ & Hfailed).
  - vm_compute. reflexivity.
  - apply (Hfailed eq_refl).
Defined.

(** The update command exits with 1. *)
Lemma update_failure_stops_the_run_witness :
  exists tr,
    deploy_result (api_config true) (script [exits 1] []) = (Ok UpdateFailed, script [] [], tr) /\
    deploy (api_config true) (script [exits 1] []) = (Ok false, script [] [], tr) /\
    invocations ApplyUpdate tr = 1 /\
    invocations WaitForRollout tr = 0 /\
    invocations Undo tr = 0.
Proof.
  apply (update_failure_stops_the_run (api_config true) (script [exits 1] [])
           (script [] []) (mkCompletedProcess 1 "" "")).
  - reflexivity.
  - simpl. lia.
Defined.

(** The scenario of the specification: the rollout wait exits with 1, and the
    undo command itself with 7. *)
Lemma rollout_failure_rolls_back_witness :
  exists tr,
    deploy_result (api_config true) (script [exits 0; exits 1; exits 7] [])
    = (Ok RolledBack, script [] [], tr) /\
    deploy (api_config true) (script [exits 0; exits 1; exits 7] [])
    = (Ok false, script [] [], tr) /\
    invocations Undo tr = 1 /\
    In (SubprocessRun (undo_cmd (api_config true)) (exits 7)) tr.
Proof.
  apply (rollout_failure_rolls_back (api_config true)
           (script [exits 0; exits 1; exits 7] []) (script [exits 1; exits 7] [])
           (script [exits 7] []) (script [] [])
           (mkCompletedProcess 0 "" "") (mkCompletedProcess 1 "" "")
           (mkCompletedProcess 7 "" "")).
  - reflexivity.
  - reflexivity.
  - reflexivity.
  - reflexivity.
  - simpl. lia.
  - reflexivity.
Defined.

Lemma rollout_failure_without_rollback_witness :
  exists tr,
    deploy_result (api_config false) (script [exits 0; exits 1] [])
    = (Ok RolloutFailed, script [] [], tr) /\
    deploy (api_config false) (script [exits 0; exits 1] []) = (Ok false, script [] [], tr) /\
    invocations Undo tr = 0.
Proof.
  apply (rollout_failure_without_rollback (api_config false)
           (script [exits 0; exits 1] []) (script [exits 1] []) (script [] [])
           (mkCompletedProcess 0 "" "") (mkCompletedProcess 1 "" "")).
  - reflexivity.
  - reflexivity.
  - reflexivity.
  - reflexivity.
  - simpl. lia.
Defined.


(** Five probes answer 503 under a true [rollback_on_failure]: the run ends
    with [HealthCheckFailed] and no undo. *)
Lemma undo_only_after_rollout_failure_witness :
  invocations Undo (snd (deploy_result (api_config true) unhealthy)) = 0 /\
  length (probes (snd (deploy_result (api_config true) unhealthy))) = 5.
Proof.
  destruct (undo_only_after_rollout_failure (api_config true) unhealthy
              (snd (fst (deploy_result (api_config true) unhealthy)))
              (Ok HealthCheckFailed)
              (snd (deploy_result (api_config true) unhealthy)))
    as [Hhealth _].
  - vm_compute. reflexivity.
  - destruct (Hhealth eq_refl) as (Hundo & Hprobes & _).
    split; [exact Hundo | exact Hprobes].
Defined.



(** C8, as stated, fails: a file with recognised fields only and no
    [image_tag] does not load; [main] exits with 1 and calls no backend. *)
Lemma config_without_image_tag_is_refused :
  let w := with_file "deploy.yaml" no_image_tag
                     (script [exits 0; exits 0] [Returned 200%Z]) in
  exists e,
    load_config "deploy.yaml" w = (Exc e, w, []) /\
    exc_class e = "TypeError" /\
    main ["deploy.py"; "deploy.yaml"; "v2"] w =
    (SysExit 1%Z, w, [Log ERROR (f_string ["Script failed: "; exc_str e])]).
Proof.
  cbv zeta. eexists. split; [vm_compute; reflexivity|].
  split; reflexivity.
Qed.

(** The file gives [image_tag: old]; what is deployed is the [v2] of the
    command line. *)
Lemma image_tag_comes_from_argv_witness :
  let w := with_file "deploy.yaml" api_yaml
                     (script [exits 0; exits 0] [Returned 200%Z]) in
  exists config w' tr,
    load_config "deploy.yaml" w = (Ok config, w, []) /\
    image_tag config = PStr "old" /\
    image_tag (set_image_tag config (PStr "v2")) = PStr "v2" /\
    main ["deploy.py"; "deploy.yaml"; "v2"] w = (SysExit 0%Z, w', tr).
Proof.
  cbv zeta.
  assert (Hload : load_config "deploy.yaml"
                    (with_file "deploy.yaml" api_yaml
                               (script [exits 0; exits 0] [Returned 200%Z]))
                  = (Ok (set_image_tag (api_config true) (PStr "old")),
                     with_file "deploy.yaml" api_yaml
                               (script [exits 0; exits 0] [Returned 200%Z]), []))
    by (vm_compute; reflexivity).
  destruct (image_tag_comes_from_argv "deploy.py" "deploy.yaml" "v2"
              (with_file "deploy.yaml" api_yaml
                         (script [exits 0; exits 0] [Returned 200%Z])))
    as [Hloaded _].
  destruct (Hloaded _ _ _ Hload) as (Htag & _ & _ & b & w2 & t2 & Hrun & Hmain).
  vm_compute in Hrun. injection Hrun as <- <- <-.
  exists (set_image_tag (api_config true) (PStr "old")).
  do 2 eexists. split; [exact Hload|].
  split; [reflexivity|]. split; [exact Htag|]. exact Hmain.
Defined.

(** * Further properties of the script *)

Lemma commands_app t1 t2 : commands (t1 ++ t2) = commands t1 ++ commands t2.
Proof.
  induction t1 as [|ev t1 IH]; simpl; [reflexivity|].
  destruct ev; simpl; rewrite IH; reflexivity.
Qed.

Lemma requests_app t1 t2 : requests (t1 ++ t2) = requests t1 ++ requests t2.
Proof.
  induction t1 as [|ev t1 IH]; simpl; [reflexivity|].
  destruct ev; simpl; rewrite IH; reflexivity.
Qed.

Lemma attempt_warnings_nil attempts : attempt_warnings attempts [] = [].
Proof. destruct attempts; reflexivity. Qed.

Lemma total_of_tens {A : Type} (l : list A) :
  total (map (fun _ => 10%Z) l) = (10 * Z.of_nat (length l))%Z.
Proof.
  induction l as [|a l IH]; [reflexivity|].
  cbn [map length]. unfold total in *. cbn [fold_right]. rewrite IH. lia.
Qed.

Section ProbeLoop.

Context {W : Type} {C : Collaborators W}.

(** What the probe loop does besides probing: it runs no command, every
    request goes to the same URL with a timeout of 10, and the warnings are
    those of the probes that raised, numbered by loop index. *)
Lemma health_loop_trace url attempts : forall w,
  exists r w' tr,
    health_loop url attempts w = (r, w', tr) /\
    commands tr = [] /\
    Forall (fun rq => rq = (url, 10%Z)) (requests tr) /\
    logged WARNING tr = attempt_warnings attempts (probes tr).
Proof.
  induction attempts as [|attempt rest IH]; intros w.
  - exists (Ok false), w, []. repeat split. constructor.
  - cbn [health_loop]. unfold bind. rewrite health_attempt_run.
    destruct (session_get url 10 w) as [[status|e] w1].
    + destruct (status =? 200)%Z.
      * do 3 eexists. split; [reflexivity|]. cbn.
        rewrite attempt_warnings_nil.
        repeat split. constructor; [reflexivity | constructor].
      * destruct (IH w1) as (r & w' & tr & Hrun & Hcmd & Hreq & Hwarn).
        rewrite Hrun. do 3 eexists. split; [reflexivity|].
        cbn [app commands requests logged probes attempt_warnings].
        split; [exact Hcmd|]. split; [|exact Hwarn].
        constructor; [reflexivity | exact Hreq].
    + destruct (IH (asyncio_sleep 10 w1)) as (r & w' & tr & Hrun & Hcmd & Hreq & Hwarn).
      rewrite Hrun. do 3 eexists. split; [reflexivity|].
      cbn [app commands requests logged probes attempt_warnings].
      split; [exact Hcmd|]. split; [|rewrite Hwarn; reflexivity].
      constructor; [reflexivity | exact Hreq].
Qed.

End ProbeLoop.

Section HealthCheckDetails.

Context {W : Type} {C : Collaborators W}.

(** X1.  In a health check, the sleeps are of 10 seconds each, one after
    each probe that raised, the fifth included, and none after a probe that
    returned a status; the warnings are those of the probes that raised,
    each with its attempt number counted from 1; the check sleeps 50 seconds
    at most. *)
Theorem verify_health_sleeps_after_exceptions_only (config : DeployConfig) (w : W) :
  exists b w' tr,
    verify_health config w = (Ok b, w', tr) /\
    sleeps tr = map (fun _ => 10%Z) (filter raised (probes tr)) /\
    logged WARNING tr = attempt_warnings (seq 0 5) (probes tr) /\
    (total (sleeps tr) <= 50)%Z.
Proof.
  destruct (verify_health_spec config w)
    as (b & w' & tr & Hrun & _ & Hlen & Hsl & _).
  destruct (health_loop_trace (health_url config) (seq 0 5) w)
    as (r & w2 & tr2 & Hrun2 & _ & _ & Hwarn).
  unfold verify_health in Hrun. rewrite Hrun in Hrun2.
  injection Hrun2 as <- <- <-.
  exists b, w', tr. split; [exact Hrun|]. split; [exact Hsl|]. split; [exact Hwarn|].
  rewrite Hsl, total_of_tens.
  pose proof (filter_length_le raised (probes tr)). lia.
Qed.

(** X2.  Every probe of a health check is a GET of the one health URL of the
    configuration, with a timeout of 10 seconds, and a health check runs no
    command. *)
Theorem verify_health_requests (config : DeployConfig) (w : W) :
  exists b w' tr,
    verify_health config w = (Ok b, w', tr) /\
    Forall (fun rq => rq = (health_url config, 10%Z)) (requests tr) /\
    length (requests tr) = length (probes tr) /\
    commands tr = [].
Proof.
  destruct (verify_health_spec config w) as (b & w' & tr & Hrun & _).
  destruct (health_loop_trace (health_url config) (seq 0 5) w)
    as (r & w2 & tr2 & Hrun2 & Hcmd & Hreq & _).
  unfold verify_health in Hrun. rewrite Hrun in Hrun2.
  injection Hrun2 as <- <- <-.
  exists b, w', tr. split; [exact Hrun|]. split; [exact Hreq|]. split; [|exact Hcmd].
  clear. induction tr as [|ev tr IH]; [reflexivity|].
  destruct ev; cbn [requests probes length]; rewrite ?IH; reflexivity.
Qed.

End HealthCheckDetails.

Section DeployDetails.

Context {W : Type} {C : Collaborators W}.

Lemma verify_health_quiet config w :
  exists b w' t,
    verify_health config w = (Ok b, w', t) /\
    health_post 5 b t /\ commands t = [].
Proof.
  destruct (verify_health_spec config w) as (b & w' & t & Hrun & Hpost).
  destruct (health_loop_trace (health_url config) (seq 0 5) w)
    as (r & w2 & t2 & Hrun2 & Hcmd & _).
  unfold verify_health in Hrun. rewrite Hrun in Hrun2.
  injection Hrun2 as <- <- <-.
  exists b, w', t. auto.
Qed.

Lemma deploy_trace config w : snd (deploy config w) = snd (deploy_result config w).
Proof.
  rewrite deploy_erasure. destruct (deploy_result config w) as [[r w'] tr].
  reflexivity.
Qed.

(** X3.  [deploy] returns [True] exactly when the update command exits with
    0, then the rollout wait exits with 0, then the health check passes; the
    trace is then the start line, the two commands, the probes and the two
    success lines, with no undo. *)
Theorem deploy_succeeds_iff (config : DeployConfig) (w w' : W) (tr : list event) :
  deploy config w = (Ok true, w', tr) <->
  exists p w1 q w2 t,
    subprocess_run (update_cmd config) w = (Returned p, w1) /\
    returncode p = 0%Z /\
    subprocess_run (rollout_cmd config) w1 = (Returned q, w2) /\
    returncode q = 0%Z /\
    verify_health config w2 = (Ok true, w', t) /\
    tr = [starting config; SubprocessRun (update_cmd config) (Returned p);
          Log INFO "Deployment updated successfully";
          SubprocessRun (rollout_cmd config) (Returned q)]
         ++ t ++ [Log INFO "Deployment completed successfully"].
Proof.
  rewrite deploy_erasure, deploy_result_run. split.
  - destruct (subprocess_run (update_cmd config) w) as [[p|e] w1] eqn:Hupd;
      [|discriminate].
    destruct (returncode p =? 0)%Z eqn:Hp; cbn [negb]; [|discriminate].
    destruct (subprocess_run (rollout_cmd config) w1) as [[q|e] w2] eqn:Hwait;
      [|discriminate].
    destruct (returncode q =? 0)%Z eqn:Hq; cbn [negb].
    + destruct (verify_health config w2) as [[[[|]|e|c|i] w3] t] eqn:Hrun;
        try discriminate.
      intros [= <- <-]. apply Z.eqb_eq in Hp, Hq.
      exists p, w1, q, w2, t. repeat split; auto.
    + destruct (truthy (rollback_on_failure config)); [|discriminate].
      destruct (subprocess_run (undo_cmd config) w2) as [[u|e] w3]; discriminate.
  - intros (p & w1 & q & w2 & t & Hupd & Hp & Hwait & Hq & Hrun & ->).
    apply Z.eqb_eq in Hp, Hq.
    rewrite Hupd, Hp. cbn [negb]. rewrite Hwait, Hq. cbn [negb]. rewrite Hrun.
    reflexivity.
Qed.

(** X4.  Whatever happens, the commands [deploy] runs are the update alone,
    the update then the rollout wait, or these two then the undo: no command
    is ever run twice or out of this order. *)
Theorem backend_commands_in_order (config : DeployConfig) (w : W) :
  let cmds := commands (snd (deploy config w)) in
  cmds = [update_cmd config] \/
  cmds = [update_cmd config; rollout_cmd config] \/
  cmds = [update_cmd config; rollout_cmd config; undo_cmd config].
Proof.
  cbv zeta. rewrite deploy_trace, deploy_result_run.
  destruct (subprocess_run (update_cmd config) w) as [[p|e] w1]; [|left; reflexivity].
  destruct (returncode p =? 0)%Z; cbn [negb]; [|left; reflexivity].
  destruct (subprocess_run (rollout_cmd config) w1) as [[q|e] w2];
    [|right; left; reflexivity].
  destruct (returncode q =? 0)%Z; cbn [negb].
  - destruct (verify_health_quiet config w2) as (b & w3 & t & Hrun & _ & Hcmd).
    rewrite Hrun. right. left.
    destruct b; cbn [snd]; rewrite !commands_app, Hcmd; reflexivity.
  - destruct (truthy (rollback_on_failure config)); [|right; left; reflexivity].
    destruct (subprocess_run (undo_cmd config) w2) as [[u|e] w3];
      right; right; reflexivity.
Qed.

(** X5.  The error lines of a run of [deploy], by the way it ends: the
    stderr of the update command for [UpdateFailed], one line for
    [HealthCheckFailed], the exception's text for [DeployError], and none at
    all for [Success], [RolloutFailed] and [RolledBack]: a failed rollout
    wait is not logged as an error by [deploy]. *)
Theorem deploy_error_log (config : DeployConfig) (w : W) :
  exists r w' tr,
    deploy_result config w = (Ok r, w', tr) /\
    logged ERROR tr =
    match r with
    | Success | RolloutFailed | RolledBack => []
    | HealthCheckFailed => ["Health check failed after deployment"]
    | DeployError e => [f_string ["Deployment failed: "; exc_str e]]
    | UpdateFailed =>
        match subprocess_run (update_cmd config) w with
        | (Returned p, _) => [f_string ["Failed to update deployment: "; stderr p]]
        | (Raised _, _) => []
        end
    end.
Proof.
  rewrite deploy_result_run.
  destruct (subprocess_run (update_cmd config) w) as [[p|e] w1];
    [|do 3 eexists; split; reflexivity].
  destruct (returncode p =? 0)%Z; cbn [negb];
    [|do 3 eexists; split; reflexivity].
  destruct (subprocess_run (rollout_cmd config) w1) as [[q|e] w2];
    [|do 3 eexists; split; reflexivity].
  destruct (returncode q =? 0)%Z; cbn [negb].
  - destruct (verify_health_quiet config w2)
      as (b & w3 & t & Hrun & (_ & _ & _ & _ & Herr & _) & _).
    rewrite Hrun.
    destruct b; do 3 eexists; (split; [reflexivity|]);
      rewrite !logged_app, Herr; reflexivity.
  - destruct (truthy (rollback_on_failure config));
      [|do 3 eexists; split; reflexivity].
    destruct (subprocess_run (undo_cmd config) w2) as [[u|e] w3];
      do 3 eexists; split; reflexivity.
Qed.

(** X6.  No probe is made unless the update and the rollout wait both
    exited with 0; a run that probes runs no undo. *)
Theorem probes_only_after_rollout (config : DeployConfig) (w : W) :
  probes (snd (deploy config w)) <> [] ->
  invocations Undo (snd (deploy config w)) = 0 /\
  exists p w1 q w2,
    subprocess_run (update_cmd config) w = (Returned p, w1) /\
    returncode p = 0%Z /\
    subprocess_run (rollout_cmd config) w1 = (Returned q, w2) /\
    returncode q = 0%Z.
Proof.
  rewrite deploy_trace, deploy_result_run.
  destruct (subprocess_run (update_cmd config) w) as [[p|e] w1] eqn:Hupd;
    [|intros H; now destruct H].
  destruct (returncode p =? 0)%Z eqn:Hp; cbn [negb]; [|intros H; now destruct H].
  destruct (subprocess_run (rollout_cmd config) w1) as [[q|e] w2] eqn:Hwait;
    [|intros H; now destruct H].
  destruct (returncode q =? 0)%Z eqn:Hq; cbn [negb].
  - apply Z.eqb_eq in Hp, Hq. intros _.
    destruct (verify_health_quiet config w2)
      as (b & w3 & t & Hrun & (Hinv & _) & _).
    rewrite Hrun. split; [|exists p, w1, q, w2; auto].
    destruct b; cbn [snd]; rewrite !invocations_app, Hinv; reflexivity.
  - destruct (truthy (rollback_on_failure config)); [|intros H; now destruct H].
    destruct (subprocess_run (undo_cmd config) w2) as [[u|e] w3];
      intros H; now destruct H.
Qed.

(** X7.  [replicas] is never read: two configurations that agree on every
    other field are deployed in the same way, command for command. *)
Theorem replicas_has_no_effect (c1 c2 : DeployConfig) (w : W) :
  service_name c1 = service_name c2 ->
  image_tag c1 = image_tag c2 ->
  namespace c1 = namespace c2 ->
  health_check_path c1 = health_check_path c2 ->
  timeout_seconds c1 = timeout_seconds c2 ->
  rollback_on_failure c1 = rollback_on_failure c2 ->
  deploy c1 w = deploy c2 w.
Proof.
  destruct c1, c2. cbn. intros -> -> -> -> -> ->. reflexivity.
Qed.

End DeployDetails.

Lemma keywords_spec items kw :
  keywords items = Some kw <-> items = map (fun kv => (PStr (fst kv), snd kv)) kw.
Proof.
  revert kw. induction items as [|[k v] items IH]; intros kw.
  - split.
    + intros [= <-]. reflexivity.
    + destruct kw; [reflexivity | discriminate].
  - cbn [keywords]. split.
    + destruct k; try discriminate.
      destruct (keywords items) as [kw'|]; [|discriminate].
      intros [= <-]. cbn. f_equal. apply IH. reflexivity.
    + destruct kw as [|[k' v'] kw]; [discriminate|].
      cbn. intros [= -> -> Hrest]. apply IH in Hrest. rewrite Hrest. reflexivity.
Qed.

Lemma is_field_spec (kv : string * pyval) :
  negb (existsb (String.eqb (fst kv)) field_names) = false <-> In (fst kv) field_names.
Proof.
  rewrite negb_false_iff, existsb_exists. split.
  - intros (name & Hin & Heq). apply String.eqb_eq in Heq. subst. exact Hin.
  - intros Hin. exists (fst kv). split; [exact Hin | apply String.eqb_refl].
Qed.

(** X8.  [DeployConfig( **data )] accepts exactly the mappings whose keys are
    all strings, all names of fields, with [service_name] and [image_tag]
    among them; everything else it refuses with a [TypeError]. *)
Theorem DeployConfig_init_accepts (data : document) :
  ((exists config, DeployConfig_init data = Returned config) <->
   (exists kw,
       data = Mapping (map (fun kv => (PStr (fst kv), snd kv)) kw) /\
       (forall k v, In (k, v) kw -> In k field_names) /\
       kwarg "service_name" kw <> None /\
       kwarg "image_tag" kw <> None)) /\
  (forall e, DeployConfig_init data = Raised e -> exc_class e = "TypeError").
Proof.
  split; [split|].
  - intros [config Hinit]. unfold DeployConfig_init in Hinit.
    destruct data as [items|v]; [|discriminate].
    destruct (keywords items) as [kw|] eqn:Hkw; [|discriminate].
    destruct (find _ kw) as [[k v]|] eqn:Hfind; [discriminate|].
    exists kw. split; [f_equal; apply keywords_spec; exact Hkw|].
    split.
    + intros k v Hin.
      apply (find_none _ _ Hfind) in Hin. apply is_field_spec in Hin. exact Hin.
    + destruct (kwarg "service_name" kw); [|discriminate].
      destruct (kwarg "image_tag" kw); [|discriminate].
      split; discriminate.
  - intros (kw & -> & Hfields & Hname & Htag).
    unfold DeployConfig_init.
    rewrite (proj2 (keywords_spec _ kw) eq_refl).
    destruct (find _ kw) as [[k v]|] eqn:Hfind.
    + apply find_some in Hfind. destruct Hfind as [Hin Hno].
      apply Hfields in Hin.
      apply (is_field_spec (k, v)) in Hin. rewrite Hin in Hno. discriminate.
    + destruct (kwarg "service_name" kw); [|contradiction].
      destruct (kwarg "image_tag" kw); [|contradiction].
      eexists. reflexivity.
  - intros e. unfold DeployConfig_init.
    destruct data as [items|v]; [|intros [= <-]; reflexivity].
    destruct (keywords items) as [kw|]; [|intros [= <-]; reflexivity].
    destruct (find _ kw) as [[k v]|]; [intros [= <-]; reflexivity|].
    destruct (kwarg "service_name" kw); [|intros [= <-]; reflexivity].
    destruct (kwarg "image_tag" kw); [discriminate | intros [= <-]; reflexivity].
Qed.

Section MainDetails.

Context {W : Type} {C : Collaborators W}.

(** X9.  For a path that does not exist, [load_config] raises a
    [FileNotFoundError] that names the path, and [main] logs it and exits with
    1: no command is run, no probe is made and the collaborators are left as
    they were. *)
Theorem missing_config_file (prog path tag : string) (w : W) :
  path_exists path w = false ->
  load_config path w =
    (Exc {| exc_class := "FileNotFoundError";
            exc_str := f_string ["Config file not found: "; path] |}, w, []) /\
  main [prog; path; tag] w =
    (SysExit 1%Z, w,
     [Log ERROR (f_string ["Script failed: ";
                           f_string ["Config file not found: "; path]])]).
Proof.
  intros Hmissing. rewrite main_run, load_config_run, Hmissing.
  split; reflexivity.
Qed.

(** X10.  Whatever exception the loading of the configuration raises (the
    file cannot be read or parsed, or the dataclass refuses the document),
    [main] logs that exception and exits with 1, and nothing else happens. *)
Theorem load_failure_exits_with_1 (prog path tag : string) (w w' : W)
    (e : pyexc) (tr : list event) :
  load_config path w = (Exc e, w', tr) ->
  main [prog; path; tag] w =
    (SysExit 1%Z, w, [Log ERROR (f_string ["Script failed: "; exc_str e])]).
Proof.
  intros Hload. assert (Hsame := Hload). rewrite load_config_run in Hsame.
  rewrite main_run, Hload.
  destruct (path_exists path w).
  - destruct (open_safe_load path w) as [data|e'].
    + destruct (DeployConfig_init data); [discriminate|].
      injection Hsame as _ <- <-. reflexivity.
    + injection Hsame as _ <- <-. reflexivity.
  - injection Hsame as _ <- <-. reflexivity.
Qed.

(** X12.  With anything but two arguments after the program name, [main]
    prints the usage line and exits with 1; it touches nothing else. *)
Theorem wrong_argument_count (argv : list string) (w : W) :
  length argv <> 3 ->
  main argv w = (SysExit 1%Z, w, [Stdout "Usage: deploy.py <config-file> <image-tag>"]).
Proof.
  intros Hlen.
  destruct argv as [|prog [|path [|tag [|extra argv]]]]; try reflexivity.
  now destruct Hlen.
Qed.

End MainDetails.

(** ** Further scenarios *)

(** The five probes answer 503: probes were made, so both commands had
    exited with 0 and there is no undo. *)
Lemma probes_only_after_rollout_witness :
  invocations Undo (snd (deploy (api_config true) unhealthy)) = 0.
Proof.
  destruct (probes_only_after_rollout (api_config true) unhealthy) as [Hundo _].
  - vm_compute. discriminate.
  - exact Hundo.
Defined.

(** Ten replicas instead of three. *)
Lemma replicas_has_no_effect_witness :
  deploy (api_config true) (script [exits 0; exits 0] [Returned 200%Z]) =
  deploy (mkDeployConfig (PStr "api") (PStr "registry/api:v2") (PStr "prod") (PInt 10)
                         (PStr "/health") (PInt 60) (PBool true))
         (script [exits 0; exits 0] [Returned 200%Z]).
Proof.
  apply (replicas_has_no_effect (api_config true)
           (mkDeployConfig (PStr "api") (PStr "registry/api:v2") (PStr "prod") (PInt 10)
                           (PStr "/health") (PInt 60) (PBool true)));
    reflexivity.
Defined.

(** No file at all in the configuration source. *)
Lemma missing_config_file_witness :
  main ["deploy.py"; "deploy.yaml"; "v2"] (script [exits 0; exits 0] [Returned 200%Z]) =
  (SysExit 1%Z, script [exits 0; exits 0] [Returned 200%Z],
   [Log ERROR "Script failed: Config file not found: deploy.yaml"]).
Proof.
  apply (missing_config_file "deploy.py" "deploy.yaml" "v2"
           (script [exits 0; exits 0] [Returned 200%Z])).
  reflexivity.
Defined.

(** An empty file: [yaml.safe_load] returns [None]. *)
Lemma load_failure_exits_with_1_witness :
  main ["deploy.py"; "deploy.yaml"; "v2"]
       (with_file "deploy.yaml" (NotMapping PNone) (script [exits 0] [])) =
  (SysExit 1%Z, with_file "deploy.yaml" (NotMapping PNone) (script [exits 0] []),
   [Log ERROR "Script failed: argument after ** must be a mapping"]).
Proof.
  apply (load_failure_exits_with_1 "deploy.py" "deploy.yaml" "v2"
           (with_file "deploy.yaml" (NotMapping PNone) (script [exits 0] []))
           (with_file "deploy.yaml" (NotMapping PNone) (script [exits 0] []))
           (TypeError "argument after ** must be a mapping") []).
  reflexivity.
Defined.

(** The image tag is forgotten on the command line. *)
Lemma wrong_argument_count_witness :
  main ["deploy.py"; "deploy.yaml"] (script [] []) =
  (SysExit 1%Z, script [] [], [Stdout "Usage: deploy.py <config-file> <image-tag>"]).
Proof.
  apply (wrong_argument_count ["deploy.py"; "deploy.yaml"] (script [] [])).
  simpl. lia.
Defined.

(** kubectl disappears between the rollout wait and the undo. *)
Lemma rollback_raising_witness :
  exists tr,
    deploy_result (api_config true) (script [exits 0; exits 1; Raised kubectl_missing] [])
    = (Ok (DeployError kubectl_missing), script [] [], tr) /\
    deploy (api_config true) (script [exits 0; exits 1; Raised kubectl_missing] [])
    = (Ok false, script [] [], tr) /\
    invocations Undo tr = 1.
Proof.
  apply (rollback_raising (api_config true)
           (script [exits 0; exits 1; Raised kubectl_missing] [])
           (script [exits 1; Raised kubectl_missing] [])
           (script [Raised kubectl_missing] []) (script [] [])
           (mkCompletedProcess 0 "" "") (mkCompletedProcess 1 "" "") kubectl_missing).
  - reflexivity.
  - reflexivity.
  - reflexivity.
  - reflexivity.
  - simpl. lia.
  - reflexivity.
Defined.

(** * Interruptions *)

Lemma interruptions_app t1 t2 :
  interruptions (t1 ++ t2) = interruptions t1 ++ interruptions t2.
Proof.
  induction t1 as [|ev t1 IH]; simpl; [reflexivity|].
  destruct ev; simpl; rewrite IH; reflexivity.
Qed.

Section Interruptions.

Context {W : Type} {E : Environment W}.

(** ** How the operations of the script finish *)

Lemma finishes_ret {A : Type} (a : A) : finishes (W := W) (ret a).
Proof. intros w. reflexivity. Qed.

Lemma finishes_raise {A : Type} (e : pyexc) : finishes (W := W) (raise (A := A) e).
Proof. intros w. reflexivity. Qed.

Lemma finishes_log lvl msg : finishes (W := W) (log lvl msg).
Proof. intros w. reflexivity. Qed.

Lemma finishes_run cmd : finishes (run cmd).
Proof.
  intros w. unfold run.
  destruct (env_run cmd w) as [[[p|e]|i] w1]; reflexivity.
Qed.

Lemma finishes_get url timeout : finishes (get url timeout).
Proof.
  intros w. unfold get.
  destruct (env_get url timeout w) as [[[status|e]|i] w1]; reflexivity.
Qed.

Lemma finishes_sleep seconds : finishes (sleep seconds).
Proof.
  intros w. unfold sleep.
  destruct (env_sleep seconds w) as [[i|] w1]; reflexivity.
Qed.

Lemma finishes_bind {A B : Type} (m : M (W := W) A) (k : A -> M (W := W) B) :
  finishes m -> (forall a, finishes (k a)) -> finishes (bind m k).
Proof.
  intros Hm Hk w. unfold bind. specialize (Hm w).
  destruct (m w) as [[[a|e|c|i] w1] t1]; try exact Hm.
  specialize (Hk a w1).
  destruct (k a w1) as [[[b|e|c|i] w2] t2];
    try rewrite interruptions_app, Hm; exact Hk.
Qed.

Lemma finishes_try {A : Type} (m : M (W := W) A) (handler : pyexc -> M (W := W) A) :
  finishes m -> (forall e, finishes (handler e)) -> finishes (try_except m handler).
Proof.
  intros Hm Hh w. unfold try_except. specialize (Hm w).
  destruct (m w) as [[[a|e|c|i] w1] t1]; try exact Hm.
  specialize (Hh e w1).
  destruct (handler e w1) as [[[b|e'|c|i] w2] t2];
    try rewrite interruptions_app, Hm; exact Hh.
Qed.

(** A handler that always returns leaves no [Exception] to the caller. *)
Lemma try_except_handles {A : Type} (m : M (W := W) A)
    (handler : pyexc -> M (W := W) A) w :
  (forall e w1, exists a t, handler e w1 = (Ok a, w1, t)) ->
  forall e w' tr, try_except m handler w <> (Exc e, w', tr).
Proof.
  intros Hh e w' tr. unfold try_except.
  destruct (m w) as [[[a|e0|c|i] w1] t1]; try discriminate.
  destruct (Hh e0 w1) as (a & t & ->). discriminate.
Qed.

Ltac finish :=
  repeat first
    [ apply finishes_ret | apply finishes_raise | apply finishes_log
    | apply finishes_run | apply finishes_get | apply finishes_sleep
    | apply finishes_bind; [|intros ?]
    | apply finishes_try; [|intros ?]
    | match goal with
      | |- finishes (if ?b then _ else _) => destruct b
      end
    | assumption ].

Lemma finishes_health_loop url attempts : finishes (health_loop url attempts).
Proof.
  induction attempts as [|attempt rest IH]; cbn [health_loop];
    unfold health_attempt; finish.
Qed.

Lemma finishes_deploy_result config : finishes (deploy_result config).
Proof.
  pose proof (finishes_health_loop (health_url config) (seq 0 5)) as Hloop.
  unfold deploy_result, update_deployment, wait_for_rollout, rollback, verify_health.
  finish.
Qed.

(** [deploy] in any environment: it returns, with no call interrupted, or
    the one interruption of the run goes through it. *)
Lemma deploy_result_settles config w :
  exists r w' tr,
    deploy_result config w = (r, w', tr) /\
    ((exists label, r = Ok label /\ interruptions tr = []) \/
     (exists i, r = BaseExc i /\ interruptions tr = [i])).
Proof.
  pose proof (finishes_deploy_result config w) as Hfin.
  destruct (deploy_result config w) as [[r w'] tr] eqn:Hrun.
  exists r, w', tr. split; [reflexivity|].
  destruct r as [label|e|c|i].
  - left. exists label. auto.
  - exfalso. unfold deploy_result in Hrun.
    apply try_except_handles in Hrun; [exact Hrun|].
    intros e0 w1. do 2 eexists. reflexivity.
  - contradiction.
  - right. exists i. auto.
Qed.

Lemma load_config_cases path w :
  exists r tr,
    load_config path w = (r, w, tr) /\
    match r with
    | Ok _ | Exc _ => tr = []
    | BaseExc i => tr = [Interrupted i]
    | SysExit _ => False
    end.
Proof.
  unfold load_config, raise.
  destruct (env_exists path w) as [[[|]|e]|i]; cbn [negb];
    try (do 2 eexists; split; reflexivity).
  destruct (env_load path w) as [[data|e]|i];
    try (do 2 eexists; split; reflexivity).
  destruct (DeployConfig_init data); do 2 eexists; split; reflexivity.
Qed.

End Interruptions.

Section UnlessInterrupted.

Context {W : Type} {E : Environment W}.

(** C9 (amended).  In every environment [deploy] ends in one of two ways.
    When no call to a collaborator is interrupted, it returns: it leaves by
    one of its six [return] statements with the matching [bool], whatever the
    collaborators return and whatever [Exception] they raise.  When a call is
    interrupted, by the cancellation of the task or by Ctrl-C, no
    [except Exception] clause catches the interruption and it goes through
    [deploy] to its caller.  [deploy] itself raises no [Exception] and never
    exits.  With collaborators that only return or raise an [Exception] it
    therefore always returns. *)
Theorem deploy_returns_unless_interrupted (config : DeployConfig) (w : W) :
  (exists r w' tr,
      deploy_result config w = (r, w', tr) /\
      deploy config w = (result_map succeeded r, w', tr) /\
      ((exists label, r = Ok label /\ interruptions tr = []) \/
       (exists i, r = BaseExc i /\ interruptions tr = [i]))) /\
  (forall C : Collaborators W,
      exists label w' tr,
        deploy_result (E := uninterrupted C) config w = (Ok label, w', tr) /\
        deploy (E := uninterrupted C) config w = (Ok (succeeded label), w', tr)).
Proof.
  split.
  - destruct (deploy_result_settles config w) as (r & w' & tr & Hrun & Hends).
    exists r, w', tr. split; [exact Hrun|]. split; [|exact Hends].
    rewrite deploy_erasure, Hrun. reflexivity.
  - intros C. apply deploy_total.
Qed.

(** X11.  In every environment [main] ends in one of two ways.  When no
    call to a collaborator is interrupted it ends in [sys.exit] with 0 or 1,
    and with 0 exactly when it got three arguments, the configuration loaded
    and [deploy] returned [True]; it never returns normally and lets no
    [Exception] out.  When a call is interrupted, the interruption goes
    through [main]. *)
Theorem main_exits_unless_interrupted (argv : list string) (w : W) :
  exists r w' tr,
    main argv w = (r, w', tr) /\
    match r with
    | SysExit code =>
        interruptions tr = [] /\
        (code = 0%Z \/ code = 1%Z) /\
        (code = 0%Z <->
         length argv = 3 /\
         exists config w2 t2,
           load_config (nth 1 argv "") w = (Ok config, w, []) /\
           deploy (set_image_tag config (PStr (nth 2 argv ""))) w = (Ok true, w2, t2))
    | BaseExc i => interruptions tr = [i]
    | Ok _ | Exc _ => False
    end.
Proof.
  destruct argv as [|prog [|path [|tag [|extra argv]]]];
    try (exists (SysExit 1%Z), w, [Stdout "Usage: deploy.py <config-file> <image-tag>"];
         split; [reflexivity|]; split; [reflexivity|]; split; [right; reflexivity|];
         split; [discriminate | intros [Hlen _]; discriminate]).
  rewrite main_run. cbn [nth length].
  destruct (load_config_cases path w) as (r & t1 & Hload & Hshape).
  rewrite Hload. destruct r as [config|e|c|i]; [| |contradiction|]; subst t1.
  - destruct (deploy_result_settles (set_image_tag config (PStr tag)) w)
      as (r & w2 & t2 & Hrun & Hends).
    assert (Hdeploy : deploy (set_image_tag config (PStr tag)) w
                      = (result_map succeeded r, w2, t2))
      by (rewrite deploy_erasure, Hrun; reflexivity).
    rewrite Hdeploy.
    destruct Hends as [(label & -> & Hnone) | (i & -> & Hone)];
      cbn [result_map] in *.
    + destruct (succeeded label) eqn:Hlabel.
      * do 3 eexists. split; [reflexivity|].
        split; [cbn [app]; rewrite interruptions_app, Hnone; reflexivity|].
        split; [left; reflexivity|]. split; [|reflexivity].
        intros _. split; [reflexivity|]. exists config, w2, t2.
        split; [reflexivity | exact Hdeploy].
      * do 3 eexists. split; [reflexivity|].
        split; [cbn [app]; rewrite interruptions_app, Hnone; reflexivity|].
        split; [right; reflexivity|]. split; [discriminate|].
        intros (_ & config' & w3 & t3 & [= <-] & Hother).
        rewrite Hdeploy in Hother. discriminate.
    + do 3 eexists. split; [reflexivity|]. exact Hone.
  - do 3 eexists. split; [reflexivity|]. split; [reflexivity|].
    split; [right; reflexivity|]. split; [discriminate|].
    intros (_ & config & w2 & t2 & [=] & _).
  - do 3 eexists. split; reflexivity.
Qed.

End UnlessInterrupted.

(** C9, as stated, fails: the update and the rollout wait succeed, the first
    probe cannot connect, and the task is cancelled during the sleep of line
    115.  [CancelledError] is no [Exception]: neither line 113 nor line 69
    catches it, and [deploy] returns nothing. *)
Lemma cancelled_sleep_escapes_deploy :
  (exists w' tr,
      deploy (E := Interrupting.environment) (api_config true)
             Interrupting.cancelled_while_sleeping
      = (BaseExc CancelledError, w', tr) /\
      logged ERROR tr = []) /\
  ~ (exists b w' tr,
        deploy (E := Interrupting.environment) (api_config true)
               Interrupting.cancelled_while_sleeping
        = (Ok b, w', tr)).
Proof.
  split.
  - do 2 eexists. split; [vm_compute; reflexivity | reflexivity].
  - intros (b & w' & tr & Hrun). vm_compute in Hrun. discriminate.
Qed.

(** Ctrl-C while the update command runs: the interruption leaves [main]
    too, past the [except Exception] of line 159. *)
Example interrupted_update_escapes_main :
  exists w' tr,
    main (E := Interrupting.environment) ["deploy.py"; "deploy.yaml"; "v2"]
         Interrupting.interrupted_update
    = (BaseExc KeyboardInterrupt, w', tr) /\
    interruptions tr = [KeyboardInterrupt].
Proof.
  do 2 eexists. split; [vm_compute; reflexivity | reflexivity].
Qed.
